(** * The Rust backend bridge of Anki's Python library (pylib/anki/rsbackend.py)

    A shallow embedding of the protobuf-to-native decoders, of the error
    classifier, of the progress callback and of the command dispatcher,
    followed by the properties the bridge's specification states about them. *)

From Stdlib Require Import ZArith List String Bool Lia.
From Stdlib Require Import Permutation Sorted.
From Stdlib Require Import Floats.PrimFloat.
Import ListNotations.
Open Scope string_scope.
Open Scope Z_scope.

(** ** Python values *)

(** Python [bytes]. *)
Definition bytes := list Byte.byte.

(** [val == "name"] where [val] is the result of [WhichOneof("value")]:
    the name of the populated field, or [None] when no field is set. *)
Definition oneof_is (val : option string) (name : string) : bool :=
  match val with
  | Some s => String.eqb s name
  | None => false
  end.

Infix "==" := oneof_is (at level 70, no associativity).

(** ** Wire messages ([anki.backend_pb2], imported as [pb]) *)

(** Modelled from the spec: the generated module [anki.backend_pb2] is not
    part of the sources at hand.  The messages are the tagged unions of the
    specification's data model, with the field names the code reads.  The
    code observes a message with a [oneof value] through
    [WhichOneof("value")] and through its fields, and a field that is not
    the populated one reads as its protobuf default: each message is a
    record of exactly what the code reads. *)

Module pb.

Module StringError.
Record t := mk { info : string }.
Definition default : t := mk "".
End StringError.

Module TemplateParseError.
Record t := mk { info : string; q_side : bool }.
Definition default : t := mk "" false.
End TemplateParseError.

Module BackendError.
Record t := mk {
  WhichOneof : option string;
  network_error : StringError.t;
  io_error : StringError.t;
  db_error : StringError.t;
  template_parse : TemplateParseError.t;
  invalid_input : StringError.t;
  ankiweb_misc_error : StringError.t
}.
Definition default : t :=
  mk None StringError.default StringError.default StringError.default
     TemplateParseError.default StringError.default StringError.default.
End BackendError.

Module TemplateRequirementOrds.
Record t := mk { ords : list Z }.
Definition default : t := mk [].
End TemplateRequirementOrds.

Module TemplateRequirement.
Record t := mk {
  WhichOneof : option string;
  any : TemplateRequirementOrds.t;
  all : TemplateRequirementOrds.t
}.
Definition default : t :=
  mk None TemplateRequirementOrds.default TemplateRequirementOrds.default.
End TemplateRequirement.

Module TTSTag.
Record t := mk {
  field_text : string;
  lang : string;
  voices : list string;
  other_args : list string;
  speed : float
}.
Definition default : t := mk "" "" [] [] 0%float.
End TTSTag.

Module AVTag.
Record t := mk {
  WhichOneof : option string;
  sound_or_video : string;
  tts : TTSTag.t
}.
Definition default : t := mk None "" TTSTag.default.
End AVTag.

Module RenderedTemplateReplacement.
Record t := mk {
  field_name : string;
  current_text : string;
  filters : list string
}.
Definition default : t := mk "" "" [].
End RenderedTemplateReplacement.

Module RenderedTemplateNode.
Record t := mk {
  WhichOneof : option string;
  text : string;
  replacement : RenderedTemplateReplacement.t
}.
Definition default : t := mk None "" RenderedTemplateReplacement.default.
End RenderedTemplateNode.

Module MediaSyncUploadProgress.
Record t := mk { files : Z; deletions : Z }.
Definition default : t := mk 0 0.
End MediaSyncUploadProgress.

Module MediaSyncProgress.
Record t := mk {
  WhichOneof : option string;
  downloaded_changes : Z;
  downloaded_files : Z;
  uploaded : MediaSyncUploadProgress.t;
  removed_files : Z
}.
Definition default : t := mk None 0 0 MediaSyncUploadProgress.default 0.
End MediaSyncProgress.

Module Progress.
Record t := mk {
  WhichOneof : option string;
  media_sync : MediaSyncProgress.t
}.
Definition default : t := mk None MediaSyncProgress.default.
End Progress.

Module TemplateRequirementsIn.
Record t := mk {
  template_front : list string;
  field_names_to_ordinals : list (string * Z)
}.
End TemplateRequirementsIn.

Module TemplateRequirementsOut.
Record t := mk { requirements : list TemplateRequirement.t }.
Definition default : t := mk [].
End TemplateRequirementsOut.

Module SchedTimingTodayIn.
Record t := mk {
  created_secs : Z;
  created_mins_west : Z;
  now_secs : Z;
  now_mins_west : Z;
  rollover_hour : Z
}.
End SchedTimingTodayIn.

(** The code hands this message to its caller as it is and reads none of
    its fields: they are kept here in their encoded form. *)
Module SchedTimingTodayOut.
Record t := mk { fields : bytes }.
Definition default : t := mk [].
End SchedTimingTodayOut.

Module RenderCardIn.
Record t := mk {
  question_template : string;
  answer_template : string;
  fields : list (string * string);
  card_ordinal : Z
}.
End RenderCardIn.

Module RenderCardOut.
Record t := mk {
  question_nodes : list RenderedTemplateNode.t;
  answer_nodes : list RenderedTemplateNode.t
}.
Definition default : t := mk [] [].
End RenderCardOut.

Module ExtractAVTagsIn.
Record t := mk { text : string; question_side : bool }.
End ExtractAVTagsIn.

Module ExtractAVTagsOut.
Record t := mk { text : string; av_tags : list AVTag.t }.
Definition default : t := mk "" [].
End ExtractAVTagsOut.

Module AddFileToMediaFolderIn.
Record t := mk { desired_name : string; data : bytes }.
End AddFileToMediaFolderIn.

Module SyncMediaIn.
Record t := mk {
  hkey : string;
  media_folder : string;
  media_db : string;
  endpoint : string
}.
End SyncMediaIn.

(** The code only builds input envelopes, one keyword argument each. *)
Module BackendInput.
Inductive t : Type :=
| template_requirements (x : TemplateRequirementsIn.t)
| sched_timing_today (x : SchedTimingTodayIn.t)
| render_card (x : RenderCardIn.t)
| local_minutes_west (stamp : Z)
| strip_av_tags (text : string)
| extract_av_tags (x : ExtractAVTagsIn.t)
| expand_clozes_to_reveal_latex (text : string)
| add_file_to_media_folder (x : AddFileToMediaFolderIn.t)
| sync_media (x : SyncMediaIn.t).
End BackendInput.

Module BackendOutput.
Record t := mk {
  WhichOneof : option string;
  error : BackendError.t;
  template_requirements : TemplateRequirementsOut.t;
  sched_timing_today : SchedTimingTodayOut.t;
  render_card : RenderCardOut.t;
  local_minutes_west : Z;
  strip_av_tags : string;
  extract_av_tags : ExtractAVTagsOut.t;
  expand_clozes_to_reveal_latex : string;
  add_file_to_media_folder : string
}.
Definition default : t :=
  mk None BackendError.default TemplateRequirementsOut.default
     SchedTimingTodayOut.default RenderCardOut.default 0 ""
     ExtractAVTagsOut.default "" "".
End BackendOutput.

End pb.

(** ** Native values *)

(** The exception classes of the module, with [Exception] itself. *)
Inductive ExcClass : Type :=
| Exception
| Interrupted
| StringError
| NetworkError
| IOError
| DBError
| TemplateError
| AnkiWebError
| AnkiWebAuthFailed.

(** A positional argument of an exception's constructor. *)
Inductive Arg : Type :=
| AStr (s : string)
| ABool (b : bool).

(** An exception instance: its class and its [args] tuple. *)
Record Exc : Type := mkExc { exc_class : ExcClass; args : list Arg }.

(** [issubclass(c, StringError)], from the class statements. *)
Definition is_StringError (c : ExcClass) : bool :=
  match c with
  | StringError | NetworkError | IOError | DBError | TemplateError
  | AnkiWebError => true
  | Exception | Interrupted | AnkiWebAuthFailed => false
  end.

(** [StringError.__str__]: [self.args[0]]; [None] stands for the
    [IndexError] (or type error) of an instance built without a message. *)
Definition StringError__str__ (self : Exc) : option string :=
  match nth_error (args self) 0 with
  | Some (AStr s) => Some s
  | _ => None
  end.

(** [TemplateError.q_side]: [self.args[1]]. *)
Definition TemplateError_q_side (self : Exc) : option bool :=
  match nth_error (args self) 1 with
  | Some (ABool b) => Some b
  | _ => None
  end.

(** What a call can raise. *)
Inductive Raised : Type :=
| Native (e : Exc)
| ImpossibleLiteral (arg : option string)
| DecodeError
| ValueError.

(** The result of a call that returns or raises. *)
Inductive Res (A : Type) : Type :=
| Done (a : A)
| Throw (r : Raised).

Arguments Done {A} a.
Arguments Throw {A} r.

(** Modelled from the spec: [anki.types.assert_impossible_literal] is not
    part of the sources at hand.  The spec calls reaching it a fatal
    internal-contract violation (a fatal assertion), distinct from the
    classified error taxonomy; it never returns. *)
Definition assert_impossible_literal {A : Type} (arg : option string) : Res A :=
  Throw (ImpossibleLiteral arg).

Definition AllTemplateReqs : Type := list (Z * string * list Z).

Inductive AVTag : Type :=
| SoundOrVideoTag (filename : string)
| TTSTag (field_text lang : string) (voices other_args : list string)
         (speed : float).

Record TemplateReplacement : Type := mkTemplateReplacement {
  field_name : string;
  current_text : string;
  filters : list string
}.

Definition TemplateReplacementList : Type :=
  list (string + TemplateReplacement).

Inductive MediaSyncProgress : Type :=
| MediaSyncDownloadedChanges (changes : Z)
| MediaSyncDownloadedFiles (files : Z)
| MediaSyncUploaded (files deletions : Z)
| MediaSyncRemovedFiles (files : Z).

Inductive ProgressKind : Type :=
| ProgressKind_MediaSyncProgress.

Record Progress : Type := mkProgress {
  kind : ProgressKind;
  val : MediaSyncProgress
}.

(** ** The decoders *)

Definition proto_exception_to_native (err : pb.BackendError.t) : Res Exc :=
  let val := pb.BackendError.WhichOneof err in
  if val == "interrupted" then
    Done (mkExc Interrupted [])
  else if val == "network_error" then
    Done (mkExc NetworkError
            [AStr (pb.StringError.info (pb.BackendError.network_error err))])
  else if val == "io_error" then
    Done (mkExc IOError
            [AStr (pb.StringError.info (pb.BackendError.io_error err))])
  else if val == "db_error" then
    Done (mkExc DBError
            [AStr (pb.StringError.info (pb.BackendError.db_error err))])
  else if val == "template_parse" then
    Done (mkExc TemplateError
            [AStr (pb.TemplateParseError.info
                     (pb.BackendError.template_parse err));
             ABool (pb.TemplateParseError.q_side
                      (pb.BackendError.template_parse err))])
  else if val == "invalid_input" then
    Done (mkExc StringError
            [AStr (pb.StringError.info (pb.BackendError.invalid_input err))])
  else if val == "ankiweb_auth_failed" then
    Done (mkExc AnkiWebAuthFailed [])
  else if val == "ankiweb_misc_error" then
    Done (mkExc AnkiWebError
            [AStr (pb.StringError.info
                     (pb.BackendError.ankiweb_misc_error err))])
  else
    assert_impossible_literal val.

(** Python's built-in [sorted] on a list of integers: a stable sort into
    ascending order, here by insertion. *)
Fixpoint insert_sorted (x : Z) (l : list Z) : list Z :=
  match l with
  | [] => [x]
  | y :: l' => if x <=? y then x :: l else y :: insert_sorted x l'
  end.

Definition sorted (l : list Z) : list Z := fold_right insert_sorted [] l.

(** The body of the [for (idx, req) in enumerate(reqs)] loop: the item
    appended to [legacy_reqs]. *)
Definition legacy_req (idx : Z) (req : pb.TemplateRequirement.t)
  : Z * string * list Z :=
  let kind := pb.TemplateRequirement.WhichOneof req in
  if kind == "any" then
    (idx, "any",
     sorted (pb.TemplateRequirementOrds.ords (pb.TemplateRequirement.any req)))
  else if kind == "all" then
    (idx, "all",
     sorted (pb.TemplateRequirementOrds.ords (pb.TemplateRequirement.all req)))
  else
    (idx, "none", []).

(** The loop itself, from index [idx] on, with the list built so far. *)
Fixpoint legacy_reqs_loop (idx : Z) (reqs : list pb.TemplateRequirement.t)
    (legacy_reqs : AllTemplateReqs) : AllTemplateReqs :=
  match reqs with
  | [] => legacy_reqs
  | req :: rest =>
      legacy_reqs_loop (idx + 1) rest (legacy_reqs ++ [legacy_req idx req])%list
  end.

Definition proto_template_reqs_to_legacy
    (reqs : list pb.TemplateRequirement.t) : AllTemplateReqs :=
  legacy_reqs_loop 0 reqs [].

Definition av_tag_to_native (tag : pb.AVTag.t) : AVTag :=
  let val := pb.AVTag.WhichOneof tag in
  if val == "sound_or_video" then
    SoundOrVideoTag (pb.AVTag.sound_or_video tag)
  else
    TTSTag (pb.TTSTag.field_text (pb.AVTag.tts tag))
           (pb.TTSTag.lang (pb.AVTag.tts tag))
           (pb.TTSTag.voices (pb.AVTag.tts tag))
           (pb.TTSTag.other_args (pb.AVTag.tts tag))
           (pb.TTSTag.speed (pb.AVTag.tts tag)).

(** One iteration of the loop of [proto_replacement_list_to_native]. *)
Definition replacement_node (node : pb.RenderedTemplateNode.t)
  : string + TemplateReplacement :=
  if pb.RenderedTemplateNode.WhichOneof node == "text" then
    inl (pb.RenderedTemplateNode.text node)
  else
    inr (mkTemplateReplacement
           (pb.RenderedTemplateReplacement.field_name
              (pb.RenderedTemplateNode.replacement node))
           (pb.RenderedTemplateReplacement.current_text
              (pb.RenderedTemplateNode.replacement node))
           (pb.RenderedTemplateReplacement.filters
              (pb.RenderedTemplateNode.replacement node))).

Fixpoint replacement_loop (nodes : list pb.RenderedTemplateNode.t)
    (results : TemplateReplacementList) : TemplateReplacementList :=
  match nodes with
  | [] => results
  | node :: rest =>
      replacement_loop rest (results ++ [replacement_node node])%list
  end.

Definition proto_replacement_list_to_native
    (nodes : list pb.RenderedTemplateNode.t) : TemplateReplacementList :=
  replacement_loop nodes [].

Definition proto_progress_to_native (progress : pb.Progress.t) : Res Progress :=
  let kind := pb.Progress.WhichOneof progress in
  if kind == "media_sync" then
    let ikind :=
      pb.MediaSyncProgress.WhichOneof (pb.Progress.media_sync progress) in
    let pkind := ProgressKind_MediaSyncProgress in
    if ikind == "downloaded_changes" then
      Done (mkProgress pkind
              (MediaSyncDownloadedChanges
                 (pb.MediaSyncProgress.downloaded_changes
                    (pb.Progress.media_sync progress))))
    else if ikind == "downloaded_files" then
      Done (mkProgress pkind
              (MediaSyncDownloadedFiles
                 (pb.MediaSyncProgress.downloaded_files
                    (pb.Progress.media_sync progress))))
    else if ikind == "uploaded" then
      let up :=
        pb.MediaSyncProgress.uploaded (pb.Progress.media_sync progress) in
      Done (mkProgress pkind
              (MediaSyncUploaded (pb.MediaSyncUploadProgress.files up)
                                 (pb.MediaSyncUploadProgress.deletions up)))
    else if ikind == "removed_files" then
      Done (mkProgress pkind
              (MediaSyncRemovedFiles
                 (pb.MediaSyncProgress.removed_files
                    (pb.Progress.media_sync progress))))
    else
      assert_impossible_literal ikind
  else
    assert_impossible_literal kind.

(** ** Calls into the engine

    A method of [RustBackend] is a computation that returns, raises, or
    calls [self._backend.command(input_bytes, release_gil)] and goes on
    with the bytes the engine answers. *)

Inductive Eff (A : Type) : Type :=
| Ret (a : A)
| Raise (r : Raised)
| Command (input_bytes : bytes) (release_gil : bool) (k : bytes -> Eff A).

Arguments Ret {A} a.
Arguments Raise {A} r.
Arguments Command {A} input_bytes release_gil k.

Fixpoint bind {A B : Type} (m : Eff A) (f : A -> Eff B) : Eff B :=
  match m with
  | Ret a => f a
  | Raise r => Raise r
  | Command i g k => Command i g (fun output_bytes => bind (k output_bytes) f)
  end.

Notation "x <- m ;; f" := (bind m (fun x => f))
  (at level 61, m at next level, right associativity).

(** [raise e] for the result of a call that computes the exception [e];
    a call that raises on its way never reaches the [raise]. *)
Definition raise_ {A : Type} (e : Res Exc) : Eff A :=
  match e with
  | Done e => Raise (Native e)
  | Throw r => Raise r
  end.

(** The engine behind the handle: it owns a state of its own and answers
    each command with bytes. *)
Definition Engine (St : Type) : Type := St -> bytes -> bool -> bytes * St.

(** The calls an execution made, oldest first: input bytes and flag. *)
Definition CallLog : Type := list (bytes * bool).

(** Running a computation against an engine: the result, the engine's
    state afterwards and the calls made. *)
Fixpoint run {St A : Type} (engine : Engine St) (s : St) (m : Eff A)
  : Res A * St * CallLog :=
  match m with
  | Ret a => (Done a, s, [])
  | Raise r => (Throw r, s, [])
  | Command i g k =>
      let '(output_bytes, s') := engine s i g in
      let '(r, s'', log) := run engine s' (k output_bytes) in
      (r, s'', (i, g) :: log)
  end.

Definition result {St A : Type} (x : Res A * St * CallLog) : Res A :=
  fst (fst x).

Definition calls {St A : Type} (x : Res A * St * CallLog) : CallLog :=
  snd x.

Section RustBackend.

(** The protobuf codec and the hook registry are outside this module. *)
Variable SerializeToString : pb.BackendInput.t -> bytes.
Variable ParseFromString : bytes -> option pb.BackendOutput.t.
Variable Progress_ParseFromString : bytes -> option pb.Progress.t.
Variable rust_progress_callback : bool -> Progress -> Res bool.

(** The constructors of the generated messages check every value against
    its field and raise [ValueError] on one the field cannot hold, an
    integer outside the width of its field for one.  The widths are those
    of the schema, which is outside this module: [accepts] tells the
    envelopes that the constructors build. *)
Variable accepts : pb.BackendInput.t -> bool.

(** [pb.BackendInput(...)], with the messages nested in it: evaluated in
    full before [_run_command] is entered. *)
Definition BackendInput (input : pb.BackendInput.t) : Eff pb.BackendInput.t :=
  if accepts input then Ret input else Raise ValueError.

Definition _on_progress (progress_bytes : bytes) : Res bool :=
  match Progress_ParseFromString progress_bytes with
  | None => Throw DecodeError
  | Some progress =>
      match proto_progress_to_native progress with
      | Throw r => Throw r
      | Done native_progress => rust_progress_callback true native_progress
      end
  end.

Definition _run_command (input : pb.BackendInput.t) (release_gil : bool)
  : Eff pb.BackendOutput.t :=
  let input_bytes := SerializeToString input in
  Command input_bytes release_gil (fun output_bytes =>
    match ParseFromString output_bytes with
    | None => Raise DecodeError
    | Some output =>
        let kind := pb.BackendOutput.WhichOneof output in
        if kind == "error" then
          raise_ (proto_exception_to_native (pb.BackendOutput.error output))
        else
          Ret output
    end).

Definition template_requirements (template_fronts : list string)
    (field_map : list (string * Z)) : Eff AllTemplateReqs :=
  input <- BackendInput
             (pb.BackendInput.template_requirements
                (pb.TemplateRequirementsIn.mk template_fronts field_map)) ;;
  out <- _run_command input false ;;
  let output := pb.BackendOutput.template_requirements out in
  let reqs := pb.TemplateRequirementsOut.requirements output in
  Ret (proto_template_reqs_to_legacy reqs).

Definition sched_timing_today
    (created_secs created_mins_west now_secs now_mins_west rollover : Z)
  : Eff pb.SchedTimingTodayOut.t :=
  input <- BackendInput
             (pb.BackendInput.sched_timing_today
                (pb.SchedTimingTodayIn.mk created_secs created_mins_west
                   now_secs now_mins_west rollover)) ;;
  out <- _run_command input false ;;
  Ret (pb.BackendOutput.sched_timing_today out).

Definition render_card (qfmt afmt : string) (fields : list (string * string))
    (card_ord : Z) : Eff (TemplateReplacementList * TemplateReplacementList) :=
  input <- BackendInput
             (pb.BackendInput.render_card
                (pb.RenderCardIn.mk qfmt afmt fields card_ord)) ;;
  o <- _run_command input false ;;
  let out := pb.BackendOutput.render_card o in
  let qnodes :=
    proto_replacement_list_to_native (pb.RenderCardOut.question_nodes out) in
  let anodes :=
    proto_replacement_list_to_native (pb.RenderCardOut.answer_nodes out) in
  Ret (qnodes, anodes).

Definition local_minutes_west (stamp : Z) : Eff Z :=
  input <- BackendInput (pb.BackendInput.local_minutes_west stamp) ;;
  out <- _run_command input false ;;
  Ret (pb.BackendOutput.local_minutes_west out).

Definition strip_av_tags (text : string) : Eff string :=
  input <- BackendInput (pb.BackendInput.strip_av_tags text) ;;
  out <- _run_command input false ;;
  Ret (pb.BackendOutput.strip_av_tags out).

Definition extract_av_tags (text : string) (question_side : bool)
  : Eff (string * list AVTag) :=
  input <- BackendInput
             (pb.BackendInput.extract_av_tags
                (pb.ExtractAVTagsIn.mk text question_side)) ;;
  o <- _run_command input false ;;
  let out := pb.BackendOutput.extract_av_tags o in
  let native_tags := map av_tag_to_native (pb.ExtractAVTagsOut.av_tags out) in
  Ret (pb.ExtractAVTagsOut.text out, native_tags).

Definition expand_clozes_to_reveal_latex (text : string) : Eff string :=
  input <- BackendInput
             (pb.BackendInput.expand_clozes_to_reveal_latex text) ;;
  out <- _run_command input false ;;
  Ret (pb.BackendOutput.expand_clozes_to_reveal_latex out).

Definition add_file_to_media_folder (desired_name : string) (data : bytes)
  : Eff string :=
  input <- BackendInput
             (pb.BackendInput.add_file_to_media_folder
                (pb.AddFileToMediaFolderIn.mk desired_name data)) ;;
  out <- _run_command input false ;;
  Ret (pb.BackendOutput.add_file_to_media_folder out).

Definition sync_media (hkey media_folder media_db endpoint : string)
  : Eff unit :=
  input <- BackendInput
             (pb.BackendInput.sync_media
                (pb.SyncMediaIn.mk hkey media_folder media_db endpoint)) ;;
  _ <- _run_command input true ;;
  Ret tt.

(** The response envelope the dispatcher decodes when the engine, in state
    [s], is sent [input]. *)
Definition response {St : Type} (engine : Engine St) (s : St)
    (input : pb.BackendInput.t) (release_gil : bool)
  : option pb.BackendOutput.t :=
  ParseFromString (fst (engine s (SerializeToString input) release_gil)).

(** The command methods of the handle, each with its arguments. *)
Inductive Method : Type :=
| m_template_requirements (template_fronts : list string)
    (field_map : list (string * Z))
| m_sched_timing_today
    (created_secs created_mins_west now_secs now_mins_west rollover : Z)
| m_render_card (qfmt afmt : string) (fields : list (string * string))
    (card_ord : Z)
| m_local_minutes_west (stamp : Z)
| m_strip_av_tags (text : string)
| m_extract_av_tags (text : string) (question_side : bool)
| m_expand_clozes_to_reveal_latex (text : string)
| m_add_file_to_media_folder (desired_name : string) (data : bytes)
| m_sync_media (hkey media_folder media_db endpoint : string).

(** The envelope a method asks the constructors for. *)
Definition method_input (m : Method) : pb.BackendInput.t :=
  match m with
  | m_template_requirements template_fronts field_map =>
      pb.BackendInput.template_requirements
        (pb.TemplateRequirementsIn.mk template_fronts field_map)
  | m_sched_timing_today a b c d e =>
      pb.BackendInput.sched_timing_today (pb.SchedTimingTodayIn.mk a b c d e)
  | m_render_card qfmt afmt fields card_ord =>
      pb.BackendInput.render_card
        (pb.RenderCardIn.mk qfmt afmt fields card_ord)
  | m_local_minutes_west stamp => pb.BackendInput.local_minutes_west stamp
  | m_strip_av_tags text => pb.BackendInput.strip_av_tags text
  | m_extract_av_tags text question_side =>
      pb.BackendInput.extract_av_tags
        (pb.ExtractAVTagsIn.mk text question_side)
  | m_expand_clozes_to_reveal_latex text =>
      pb.BackendInput.expand_clozes_to_reveal_latex text
  | m_add_file_to_media_folder desired_name data =>
      pb.BackendInput.add_file_to_media_folder
        (pb.AddFileToMediaFolderIn.mk desired_name data)
  | m_sync_media hkey media_folder media_db endpoint =>
      pb.BackendInput.sync_media
        (pb.SyncMediaIn.mk hkey media_folder media_db endpoint)
  end.

Definition is_sync_media (m : Method) : bool :=
  match m with
  | m_sync_media _ _ _ _ => true
  | _ => false
  end.

(** The calls into the engine that invoking a method makes. *)
Definition method_calls {St : Type} (engine : Engine St) (s : St)
    (m : Method)
  : CallLog :=
  match m with
  | m_template_requirements a b =>
      calls (run engine s (template_requirements a b))
  | m_sched_timing_today a b c d e =>
      calls (run engine s (sched_timing_today a b c d e))
  | m_render_card a b c d => calls (run engine s (render_card a b c d))
  | m_local_minutes_west a => calls (run engine s (local_minutes_west a))
  | m_strip_av_tags a => calls (run engine s (strip_av_tags a))
  | m_extract_av_tags a b => calls (run engine s (extract_av_tags a b))
  | m_expand_clozes_to_reveal_latex a =>
      calls (run engine s (expand_clozes_to_reveal_latex a))
  | m_add_file_to_media_folder a b =>
      calls (run engine s (add_file_to_media_folder a b))
  | m_sync_media a b c d => calls (run engine s (sync_media a b c d))
  end.

End RustBackend.

(** ** Vocabulary of the properties *)

(** The variants a decoder tests for, by discriminant. *)
Definition error_kinds : list string :=
  ["interrupted"; "network_error"; "io_error"; "db_error"; "template_parse";
   "invalid_input"; "ankiweb_auth_failed"; "ankiweb_misc_error"].

Definition av_tag_kinds : list string := ["sound_or_video"; "tts"].

Definition node_kinds : list string := ["text"; "replacement"].

Definition media_sync_kinds : list string :=
  ["downloaded_changes"; "downloaded_files"; "uploaded"; "removed_files"].

Definition progress_kinds : list string := ["media_sync"].

(** Whether a discriminant names one of the variants of [known]; an unset
    union names none. *)
Definition known_variant (known : list string) (val : option string) : bool :=
  match val with
  | Some s => existsb (String.eqb s) known
  | None => false
  end.

(** The name of the variant an input envelope is populated with, which is
    also the name of the variant of the response that answers it. *)
Definition command_name (input : pb.BackendInput.t) : string :=
  match input with
  | pb.BackendInput.template_requirements _ => "template_requirements"
  | pb.BackendInput.sched_timing_today _ => "sched_timing_today"
  | pb.BackendInput.render_card _ => "render_card"
  | pb.BackendInput.local_minutes_west _ => "local_minutes_west"
  | pb.BackendInput.strip_av_tags _ => "strip_av_tags"
  | pb.BackendInput.extract_av_tags _ => "extract_av_tags"
  | pb.BackendInput.expand_clozes_to_reveal_latex _ =>
      "expand_clozes_to_reveal_latex"
  | pb.BackendInput.add_file_to_media_folder _ => "add_file_to_media_folder"
  | pb.BackendInput.sync_media _ => "sync_media"
  end.

(** A call that ends in the fatal assertion. *)
Definition fatal {A : Type} (r : Res A) : Prop :=
  exists arg, r = Throw (ImpossibleLiteral arg).

(** A decoder rejects the discriminants outside [known]. *)
Definition rejects_unknown {M A : Type} (known : list string)
    (which : M -> option string) (decode : M -> Res A) : Prop :=
  forall msg, known_variant known (which msg) = false -> fatal (decode msg).

(** The native class of each error kind.  The module has no class of its
    own for [invalid_input]: its errors are plain [StringError]s, the class
    the other message-carrying errors derive from. *)
Definition native_kind (k : string) : option ExcClass :=
  if String.eqb k "interrupted" then Some Interrupted
  else if String.eqb k "network_error" then Some NetworkError
  else if String.eqb k "io_error" then Some IOError
  else if String.eqb k "db_error" then Some DBError
  else if String.eqb k "template_parse" then Some TemplateError
  else if String.eqb k "invalid_input" then Some StringError
  else if String.eqb k "ankiweb_auth_failed" then Some AnkiWebAuthFailed
  else if String.eqb k "ankiweb_misc_error" then Some AnkiWebError
  else None.

(** The message the wire error carries under the variant named [k]; the
    two argument-less kinds carry none. *)
Definition wire_info (err : pb.BackendError.t) (k : string) : option string :=
  if String.eqb k "network_error" then
    Some (pb.StringError.info (pb.BackendError.network_error err))
  else if String.eqb k "io_error" then
    Some (pb.StringError.info (pb.BackendError.io_error err))
  else if String.eqb k "db_error" then
    Some (pb.StringError.info (pb.BackendError.db_error err))
  else if String.eqb k "template_parse" then
    Some (pb.TemplateParseError.info (pb.BackendError.template_parse err))
  else if String.eqb k "invalid_input" then
    Some (pb.StringError.info (pb.BackendError.invalid_input err))
  else if String.eqb k "ankiweb_misc_error" then
    Some (pb.StringError.info (pb.BackendError.ankiweb_misc_error err))
  else None.

(** Ascending order, and ascending order without repetition. *)
Definition ascending (l : list Z) : Prop := Sorted Z.le l.

Definition ascending_no_dup (l : list Z) : Prop := Sorted Z.le l /\ NoDup l.

(** ** Sample messages *)

Definition err_template_parse : pb.BackendError.t :=
  pb.BackendError.mk (Some "template_parse")
    pb.StringError.default pb.StringError.default pb.StringError.default
    (pb.TemplateParseError.mk "bad tag" true)
    pb.StringError.default pb.StringError.default.

(** An error whose union is left unset. *)
Definition err_unset : pb.BackendError.t := pb.BackendError.default.

Definition progress_uploaded : pb.Progress.t :=
  pb.Progress.mk (Some "media_sync")
    (pb.MediaSyncProgress.mk (Some "uploaded") 0 0
       (pb.MediaSyncUploadProgress.mk 3 1) 0).

Definition req_any (ords : list Z) : pb.TemplateRequirement.t :=
  pb.TemplateRequirement.mk (Some "any")
    (pb.TemplateRequirementOrds.mk ords) pb.TemplateRequirementOrds.default.

Definition req_all (ords : list Z) : pb.TemplateRequirement.t :=
  pb.TemplateRequirement.mk (Some "all")
    pb.TemplateRequirementOrds.default (pb.TemplateRequirementOrds.mk ords).

Definition req_none : pb.TemplateRequirement.t :=
  pb.TemplateRequirement.mk (Some "none")
    pb.TemplateRequirementOrds.default pb.TemplateRequirementOrds.default.

Definition tag_picture : pb.AVTag.t :=
  pb.AVTag.mk (Some "picture") "" pb.TTSTag.default.

Definition node_image : pb.RenderedTemplateNode.t :=
  pb.RenderedTemplateNode.mk (Some "image") ""
    pb.RenderedTemplateReplacement.default.

Definition req_some : pb.TemplateRequirement.t :=
  pb.TemplateRequirement.mk (Some "some")
    pb.TemplateRequirementOrds.default pb.TemplateRequirementOrds.default.

(** A response envelope populated with the output of [strip_av_tags]. *)
Definition out_strip_av_tags : pb.BackendOutput.t :=
  pb.BackendOutput.mk (Some "strip_av_tags") pb.BackendError.default
    pb.TemplateRequirementsOut.default pb.SchedTimingTodayOut.default
    pb.RenderCardOut.default 0 "x" pb.ExtractAVTagsOut.default "" "".

(** A response envelope populated with an error whose union is unset. *)
Definition out_error_unset : pb.BackendOutput.t :=
  pb.BackendOutput.mk (Some "error") err_unset
    pb.TemplateRequirementsOut.default pb.SchedTimingTodayOut.default
    pb.RenderCardOut.default 0 "" pb.ExtractAVTagsOut.default "" "".

(** A response envelope populated with a template-parse error. *)
Definition out_error_template_parse : pb.BackendOutput.t :=
  pb.BackendOutput.mk (Some "error") err_template_parse
    pb.TemplateRequirementsOut.default pb.SchedTimingTodayOut.default
    pb.RenderCardOut.default 0 "" pb.ExtractAVTagsOut.default "" "".

(** A codec and an engine to run the methods against: the engine answers
    each command with the bytes it was sent, which the codec decodes as
    the envelope [output]. *)
Definition no_bytes (input : pb.BackendInput.t) : bytes := [].

Definition decodes_as (output : pb.BackendOutput.t) (output_bytes : bytes)
  : option pb.BackendOutput.t := Some output.

(** The envelopes that the constructors of a schema build, for a schema
    with 64-bit signed stamps and seconds, 32-bit signed offsets and hours
    and 32-bit unsigned ordinals. *)
Definition fits_int64 (z : Z) : bool :=
  (- 2 ^ 63 <=? z) && (z <? 2 ^ 63).

Definition fits_int32 (z : Z) : bool :=
  (- 2 ^ 31 <=? z) && (z <? 2 ^ 31).

Definition fits_uint32 (z : Z) : bool :=
  (0 <=? z) && (z <? 2 ^ 32).

Definition fixed_width (input : pb.BackendInput.t) : bool :=
  match input with
  | pb.BackendInput.template_requirements x =>
      forallb (fun kv => fits_uint32 (snd kv))
        (pb.TemplateRequirementsIn.field_names_to_ordinals x)
  | pb.BackendInput.sched_timing_today x =>
      fits_int64 (pb.SchedTimingTodayIn.created_secs x) &&
      fits_int32 (pb.SchedTimingTodayIn.created_mins_west x) &&
      fits_int64 (pb.SchedTimingTodayIn.now_secs x) &&
      fits_int32 (pb.SchedTimingTodayIn.now_mins_west x) &&
      fits_int32 (pb.SchedTimingTodayIn.rollover_hour x)
  | pb.BackendInput.render_card x =>
      fits_uint32 (pb.RenderCardIn.card_ordinal x)
  | pb.BackendInput.local_minutes_west stamp => fits_int64 stamp
  | _ => true
  end.

Definition echo_engine : Engine unit :=
  fun s input_bytes release_gil => (input_bytes, s).

(** An observer that asks for the interruption of the command. *)
Definition observer_interrupts (continue_ : bool) (progress : Progress)
  : Res bool := Done false.

(** ** Vocabulary of the further properties *)

(** The discriminant an exception class stands for; [Exception] itself
    stands for none. *)
Definition wire_kind_of_class (c : ExcClass) : option string :=
  match c with
  | Exception => None
  | Interrupted => Some "interrupted"
  | StringError => Some "invalid_input"
  | NetworkError => Some "network_error"
  | IOError => Some "io_error"
  | DBError => Some "db_error"
  | TemplateError => Some "template_parse"
  | AnkiWebError => Some "ankiweb_misc_error"
  | AnkiWebAuthFailed => Some "ankiweb_auth_failed"
  end.

(** The media-sync discriminant a native progress value stands for. *)
Definition subkind_name (v : MediaSyncProgress) : string :=
  match v with
  | MediaSyncDownloadedChanges _ => "downloaded_changes"
  | MediaSyncDownloadedFiles _ => "downloaded_files"
  | MediaSyncUploaded _ _ => "uploaded"
  | MediaSyncRemovedFiles _ => "removed_files"
  end.

(** Two wire requirements that differ at most in the order of their
    ordinals. *)
Definition req_equiv (r1 r2 : pb.TemplateRequirement.t) : Prop :=
  pb.TemplateRequirement.WhichOneof r1 = pb.TemplateRequirement.WhichOneof r2
  /\ Permutation
       (pb.TemplateRequirementOrds.ords (pb.TemplateRequirement.any r1))
       (pb.TemplateRequirementOrds.ords (pb.TemplateRequirement.any r2))
  /\ Permutation
       (pb.TemplateRequirementOrds.ords (pb.TemplateRequirement.all r1))
       (pb.TemplateRequirementOrds.ords (pb.TemplateRequirement.all r2)).

(** A decoded requirement with its index moved up by [n]. *)
Definition shift_index (n : Z) (item : Z * string * list Z)
  : Z * string * list Z :=
  let '(idx, kind, ords) := item in (n + idx, kind, ords).

(** What a call raised, if it raised. *)
Definition raised {A : Type} (r : Res A) : option Raised :=
  match r with
  | Done _ => None
  | Throw t => Some t
  end.

(** What invoking a method raises, if it raises. *)
Definition method_raised {St : Type}
    (SerializeToString : pb.BackendInput.t -> bytes)
    (ParseFromString : bytes -> option pb.BackendOutput.t)
    (accepts : pb.BackendInput.t -> bool)
    (engine : Engine St) (s : St) (m : Method) : option Raised :=
  let go {A : Type} (c : Eff A) := raised (result (run engine s c)) in
  match m with
  | m_template_requirements a b =>
      go (template_requirements SerializeToString ParseFromString accepts a b)
  | m_sched_timing_today a b c d e =>
      go (sched_timing_today SerializeToString ParseFromString accepts
            a b c d e)
  | m_render_card a b c d =>
      go (render_card SerializeToString ParseFromString accepts a b c d)
  | m_local_minutes_west a =>
      go (local_minutes_west SerializeToString ParseFromString accepts a)
  | m_strip_av_tags a =>
      go (strip_av_tags SerializeToString ParseFromString accepts a)
  | m_extract_av_tags a b =>
      go (extract_av_tags SerializeToString ParseFromString accepts a b)
  | m_expand_clozes_to_reveal_latex a =>
      go (expand_clozes_to_reveal_latex SerializeToString ParseFromString
            accepts a)
  | m_add_file_to_media_folder a b =>
      go (add_file_to_media_folder SerializeToString ParseFromString accepts
            a b)
  | m_sync_media a b c d =>
      go (sync_media SerializeToString ParseFromString accepts a b c d)
  end.

Definition node_text (text : string) : pb.RenderedTemplateNode.t :=
  pb.RenderedTemplateNode.mk (Some "text") text
    pb.RenderedTemplateReplacement.default.

Definition node_replacement (field_name current_text : string)
    (filters : list string) : pb.RenderedTemplateNode.t :=
  pb.RenderedTemplateNode.mk (Some "replacement") ""
    (pb.RenderedTemplateReplacement.mk field_name current_text filters).

(** ** General lemmas *)

Lemma oneof_is_true (val : option string) (name : string) :
  (val == name) = true <-> val = Some name.
Proof.
  destruct val as [s|]; simpl.
  - rewrite String.eqb_eq. split; intros H; [now subst | now injection H].
  - split; discriminate.
Qed.

Lemma oneof_is_refl (name : string) : (Some name == name) = true.
Proof. now apply oneof_is_true. Qed.

Lemma unknown_is_false (known : list string) (val : option string)
    (name : string) :
  known_variant known val = false -> In name known -> (val == name) = false.
Proof.
  intros Hk Hin. destruct val as [s|]; simpl in *; [|reflexivity].
  destruct (String.eqb_spec s name) as [->|]; [|reflexivity].
  rewrite <- Hk. symmetry. apply existsb_exists.
  exists name. split; [assumption | apply String.eqb_refl].
Qed.

Lemma known_in (known : list string) (name : string) :
  existsb (String.eqb name) known = true -> In name known.
Proof.
  intros H. apply existsb_exists in H. destruct H as [x [Hin Heq]].
  apply String.eqb_eq in Heq. now subst.
Qed.

(** In every proof about a decoder, the tests on the discriminant are
    settled by the hypotheses at hand. *)
Ltac settle_tests known H :=
  repeat (rewrite (unknown_is_false known _ _ H)
            by (apply known_in; reflexivity)).

(** *** The sort *)

Lemma insert_sorted_permutation (x : Z) (l : list Z) :
  Permutation (x :: l) (insert_sorted x l).
Proof.
  induction l as [|y l IH]; simpl; [reflexivity|].
  destruct (x <=? y); [reflexivity|].
  rewrite perm_swap. now constructor.
Qed.

Lemma insert_sorted_ascending (x : Z) (l : list Z) :
  ascending l -> ascending (insert_sorted x l).
Proof.
  unfold ascending. induction l as [|y l IH]; intros Hs; simpl.
  - repeat constructor.
  - destruct (Z.leb_spec x y) as [Hle|Hlt].
    + constructor; [assumption | constructor; assumption].
    + inversion Hs as [|? ? Hs' Hhd]; subst.
      constructor; [now apply IH|].
      destruct l as [|z l]; simpl.
      * constructor; lia.
      * destruct (x <=? z); constructor; [lia|].
        now inversion Hhd.
Qed.

Lemma sorted_ascending (l : list Z) : ascending (sorted l).
Proof.
  induction l as [|x l IH]; simpl.
  - constructor.
  - now apply insert_sorted_ascending.
Qed.

Lemma sorted_permutation (l : list Z) : Permutation l (sorted l).
Proof.
  induction l as [|x l IH]; simpl; [constructor|].
  rewrite <- insert_sorted_permutation. now constructor.
Qed.

Lemma sorted_keeps_no_dup (l : list Z) : NoDup l <-> NoDup (sorted l).
Proof.
  split; intros H.
  - exact (Permutation_NoDup (sorted_permutation l) H).
  - exact (Permutation_NoDup (Permutation_sym (sorted_permutation l)) H).
Qed.

(** *** The loops *)

Lemma legacy_reqs_loop_acc (reqs : list pb.TemplateRequirement.t) :
  forall idx acc,
    legacy_reqs_loop idx reqs acc = (acc ++ legacy_reqs_loop idx reqs [])%list.
Proof.
  induction reqs as [|req rest IH]; intros idx acc; simpl.
  - now rewrite app_nil_r.
  - rewrite (IH (idx + 1) (acc ++ _)%list), (IH (idx + 1) [_]).
    now rewrite <- app_assoc.
Qed.

Lemma legacy_reqs_loop_cons idx req rest :
  legacy_reqs_loop idx (req :: rest) [] =
  legacy_req idx req :: legacy_reqs_loop (idx + 1) rest [].
Proof. simpl. now rewrite legacy_reqs_loop_acc. Qed.

Lemma legacy_reqs_loop_nth (reqs : list pb.TemplateRequirement.t) :
  forall idx i,
    nth_error (legacy_reqs_loop idx reqs []) i =
    option_map (legacy_req (idx + Z.of_nat i)) (nth_error reqs i).
Proof.
  induction reqs as [|req rest IH]; intros idx i.
  - now destruct i.
  - rewrite legacy_reqs_loop_cons. destruct i as [|i].
    + simpl. now rewrite Z.add_0_r.
    + cbn [nth_error]. rewrite IH. do 2 f_equal. lia.
Qed.

Lemma proto_template_reqs_to_legacy_nth reqs i :
  nth_error (proto_template_reqs_to_legacy reqs) i =
  option_map (legacy_req (Z.of_nat i)) (nth_error reqs i).
Proof.
  unfold proto_template_reqs_to_legacy. now rewrite legacy_reqs_loop_nth.
Qed.

Lemma proto_template_reqs_to_legacy_length reqs :
  List.length (proto_template_reqs_to_legacy reqs) = List.length reqs.
Proof.
  unfold proto_template_reqs_to_legacy. generalize 0.
  induction reqs as [|req rest IH]; intros idx; [reflexivity|].
  rewrite legacy_reqs_loop_cons. simpl. now rewrite IH.
Qed.

Lemma legacy_req_idx idx req : fst (fst (legacy_req idx req)) = idx.
Proof.
  unfold legacy_req.
  destruct (_ == "any"); [reflexivity|].
  destruct (_ == "all"); reflexivity.
Qed.

Lemma replacement_loop_acc (nodes : list pb.RenderedTemplateNode.t) :
  forall results,
    replacement_loop nodes results =
    (results ++ map replacement_node nodes)%list.
Proof.
  induction nodes as [|node rest IH]; intros results; simpl.
  - now rewrite app_nil_r.
  - rewrite IH. now rewrite <- app_assoc.
Qed.

Lemma proto_replacement_list_to_native_map nodes :
  proto_replacement_list_to_native nodes = map replacement_node nodes.
Proof.
  unfold proto_replacement_list_to_native. now rewrite replacement_loop_acc.
Qed.

Lemma not_fatal_done {A : Type} (a : A) : ~ fatal (Done a).
Proof. intros [arg H]. discriminate H. Qed.

(** ** The error classifier *)

(** C3.  A wire error whose discriminant is one of the eight fixed kinds
    is classified as a native error of the matching class; where the wire
    variant carries a message, the error is a [StringError] whose string is
    that message unchanged; for [template_parse] the question-side flag is
    read back by the [q_side] accessor and is no part of the message;
    [interrupted] and [ankiweb_auth_failed] give errors without arguments. *)
Theorem proto_exception_to_native_classifies
    (err : pb.BackendError.t) (k : string) :
  In k error_kinds ->
  pb.BackendError.WhichOneof err = Some k ->
  exists e,
    proto_exception_to_native err = Done e /\
    native_kind k = Some (exc_class e) /\
    (forall msg, wire_info err k = Some msg ->
       is_StringError (exc_class e) = true /\
       StringError__str__ e = Some msg) /\
    (k = "template_parse" ->
       TemplateError_q_side e =
         Some (pb.TemplateParseError.q_side
                 (pb.BackendError.template_parse err)) /\
       StringError__str__ e =
         Some (pb.TemplateParseError.info
                 (pb.BackendError.template_parse err))) /\
    (k = "ankiweb_auth_failed" \/ k = "interrupted" -> args e = []).
Proof.
  intros Hin Hk. unfold proto_exception_to_native. rewrite Hk.
  simpl in Hin.
  repeat (destruct Hin as [<-|Hin]); try contradiction;
    cbn; eexists; (split; [reflexivity|]); cbn;
    repeat split; try discriminate; try reflexivity;
    intros; intuition congruence.
Qed.

Lemma proto_exception_to_native_classifies_witness :
  exists e,
    proto_exception_to_native err_template_parse = Done e /\
    exc_class e = TemplateError /\
    StringError__str__ e = Some "bad tag" /\
    TemplateError_q_side e = Some true.
Proof.
  destruct (proto_exception_to_native_classifies
              err_template_parse "template_parse")
    as [e [He [Hk [_ [Hq _]]]]].
  - apply known_in. reflexivity.
  - reflexivity.
  - exists e. destruct (Hq eq_refl) as [Hside Hmsg].
    injection Hk as Hk. repeat split; auto.
Defined.

(** C7.  A wire error whose discriminant is none of the eight fixed kinds
    (an unset union included) makes the classifier end in the fatal
    assertion on that discriminant; it returns no native error. *)
Theorem proto_exception_to_native_unknown (err : pb.BackendError.t) :
  known_variant error_kinds (pb.BackendError.WhichOneof err) = false ->
  proto_exception_to_native err =
    Throw (ImpossibleLiteral (pb.BackendError.WhichOneof err)) /\
  fatal (proto_exception_to_native err) /\
  forall e, proto_exception_to_native err <> Done e.
Proof.
  intros Hk.
  assert (H : proto_exception_to_native err =
              Throw (ImpossibleLiteral (pb.BackendError.WhichOneof err))).
  { unfold proto_exception_to_native.
    settle_tests error_kinds Hk. reflexivity. }
  rewrite H. repeat split.
  - now eexists.
  - discriminate.
Qed.

Lemma proto_exception_to_native_unknown_witness :
  proto_exception_to_native err_unset = Throw (ImpossibleLiteral None) /\
  fatal (proto_exception_to_native err_unset) /\
  forall e, proto_exception_to_native err_unset <> Done e.
Proof.
  apply (proto_exception_to_native_unknown err_unset). reflexivity.
Defined.

(** ** The progress decoder *)

(** C6.  A progress message of the [media_sync] category whose inner
    discriminant is one of the four subkinds decodes to the native value of
    that subkind with its numeric fields unchanged; any other inner
    discriminant, and any other category, ends in the fatal assertion. *)
Theorem proto_progress_to_native_decodes (progress : pb.Progress.t) :
  let ms := pb.Progress.media_sync progress in
  let ikind := pb.MediaSyncProgress.WhichOneof ms in
  let native v := Done (mkProgress ProgressKind_MediaSyncProgress v) in
  (pb.Progress.WhichOneof progress = Some "media_sync" ->
     (ikind = Some "downloaded_changes" ->
        proto_progress_to_native progress =
          native (MediaSyncDownloadedChanges
                    (pb.MediaSyncProgress.downloaded_changes ms))) /\
     (ikind = Some "downloaded_files" ->
        proto_progress_to_native progress =
          native (MediaSyncDownloadedFiles
                    (pb.MediaSyncProgress.downloaded_files ms))) /\
     (ikind = Some "uploaded" ->
        proto_progress_to_native progress =
          native (MediaSyncUploaded
                    (pb.MediaSyncUploadProgress.files
                       (pb.MediaSyncProgress.uploaded ms))
                    (pb.MediaSyncUploadProgress.deletions
                       (pb.MediaSyncProgress.uploaded ms)))) /\
     (ikind = Some "removed_files" ->
        proto_progress_to_native progress =
          native (MediaSyncRemovedFiles
                    (pb.MediaSyncProgress.removed_files ms))) /\
     (known_variant media_sync_kinds ikind = false ->
        proto_progress_to_native progress = Throw (ImpossibleLiteral ikind)))
  /\
  (known_variant progress_kinds (pb.Progress.WhichOneof progress) = false ->
     proto_progress_to_native progress =
       Throw (ImpossibleLiteral (pb.Progress.WhichOneof progress))).
Proof.
  cbv zeta. unfold proto_progress_to_native. split.
  - intros Hkind. rewrite Hkind, oneof_is_refl.
    repeat split; intros Hi.
    1-4: now rewrite Hi.
    settle_tests media_sync_kinds Hi. reflexivity.
  - intros Hkind. settle_tests progress_kinds Hkind. reflexivity.
Qed.

Lemma proto_progress_to_native_decodes_witness :
  proto_progress_to_native progress_uploaded =
    Done (mkProgress ProgressKind_MediaSyncProgress (MediaSyncUploaded 3 1)) /\
  proto_progress_to_native pb.Progress.default =
    Throw (ImpossibleLiteral None).
Proof.
  split.
  - destruct (proto_progress_to_native_decodes progress_uploaded)
      as [H _].
    destruct (H eq_refl) as [_ [_ [Hup _]]].
    exact (Hup eq_refl).
  - destruct (proto_progress_to_native_decodes pb.Progress.default)
      as [_ H].
    exact (H eq_refl).
Defined.

(** ** Template requirements *)

(** C10.  The decoded list is as long as the wire list, and the element at
    position [i] carries the index [i]. *)
Theorem proto_template_reqs_to_legacy_indices
    (reqs : list pb.TemplateRequirement.t) :
  List.length (proto_template_reqs_to_legacy reqs) = List.length reqs /\
  forall (i : nat) (item : Z * string * list Z),
    nth_error (proto_template_reqs_to_legacy reqs) i = Some item ->
    fst (fst item) = Z.of_nat i.
Proof.
  split; [apply proto_template_reqs_to_legacy_length|].
  intros i item. rewrite proto_template_reqs_to_legacy_nth.
  destruct (nth_error reqs i) as [req|]; simpl; [|discriminate].
  intros H. injection H as <-. apply legacy_req_idx.
Qed.

Lemma proto_template_reqs_to_legacy_indices_witness :
  nth_error (proto_template_reqs_to_legacy [req_any [2; 1]; req_none]) 1 =
    Some (1, "none", []) /\
  fst (fst (1, "none", @nil Z)) = Z.of_nat 1.
Proof.
  split; [reflexivity|].
  apply (proj2 (proto_template_reqs_to_legacy_indices
                  [req_any [2; 1]; req_none]) 1%nat).
  reflexivity.
Defined.

(** C4, the claim as written, fails: ordinals the wire repeats stay
    repeated after decoding. *)
Lemma proto_template_reqs_to_legacy_keeps_duplicates :
  proto_template_reqs_to_legacy [req_any [2; 1; 2]] = [(0, "any", [1; 2; 2])] /\
  ~ (forall item,
       In item (proto_template_reqs_to_legacy [req_any [2; 1; 2]]) ->
       ascending_no_dup (snd item)).
Proof.
  split; [reflexivity|].
  intros H. destruct (H (0, "any", [1; 2; 2])) as [_ Hnd].
  - left. reflexivity.
  - simpl in Hnd. inversion Hnd as [|? ? _ Hnd']; subst.
    inversion Hnd' as [|? ? Hnotin _]; subst.
    apply Hnotin. left. reflexivity.
Qed.

(** C4, amended.  The element decoded from the requirement at position
    [i]: under [any] and [all] its ordinal list is ascending and holds the
    wire-carried ordinals with their multiplicities (so it is free of
    duplicates exactly when the wire list is); under every other
    discriminant its kind is [none] and its ordinal list is empty, whatever
    ordinals the wire form carries. *)
Theorem proto_template_reqs_to_legacy_ordinals
    (reqs : list pb.TemplateRequirement.t) (i : nat)
    (req : pb.TemplateRequirement.t) :
  nth_error reqs i = Some req ->
  exists kind ords,
    nth_error (proto_template_reqs_to_legacy reqs) i =
      Some (Z.of_nat i, kind, ords) /\
    (pb.TemplateRequirement.WhichOneof req = Some "any" ->
       let wire :=
         pb.TemplateRequirementOrds.ords (pb.TemplateRequirement.any req) in
       kind = "any" /\ ascending ords /\ Permutation wire ords /\
       (NoDup wire <-> NoDup ords)) /\
    (pb.TemplateRequirement.WhichOneof req = Some "all" ->
       let wire :=
         pb.TemplateRequirementOrds.ords (pb.TemplateRequirement.all req) in
       kind = "all" /\ ascending ords /\ Permutation wire ords /\
       (NoDup wire <-> NoDup ords)) /\
    (pb.TemplateRequirement.WhichOneof req <> Some "any" ->
     pb.TemplateRequirement.WhichOneof req <> Some "all" ->
       kind = "none" /\ ords = []).
Proof.
  intros Hreq. rewrite proto_template_reqs_to_legacy_nth, Hreq. simpl.
  unfold legacy_req.
  destruct (pb.TemplateRequirement.WhichOneof req == "any") eqn:Hany.
  - apply oneof_is_true in Hany. do 2 eexists. split; [reflexivity|].
    rewrite Hany. repeat split; try discriminate; try congruence.
    + apply sorted_ascending.
    + apply sorted_permutation.
    + apply sorted_keeps_no_dup.
    + apply sorted_keeps_no_dup.
  - destruct (pb.TemplateRequirement.WhichOneof req == "all") eqn:Hall.
    + apply oneof_is_true in Hall. do 2 eexists. split; [reflexivity|].
      rewrite Hall. repeat split; try discriminate; try congruence.
      * apply sorted_ascending.
      * apply sorted_permutation.
      * apply sorted_keeps_no_dup.
      * apply sorted_keeps_no_dup.
    + do 2 eexists. split; [reflexivity|].
      split; [|split].
      * intros H. apply oneof_is_true in H. congruence.
      * intros H. apply oneof_is_true in H. congruence.
      * intros _ _. split; reflexivity.
Qed.

Lemma proto_template_reqs_to_legacy_ordinals_witness :
  exists ords,
    nth_error (proto_template_reqs_to_legacy [req_none; req_all [5; 0; 5; 3]])
      1 = Some (1, "all", ords) /\
    ascending ords /\ Permutation [5; 0; 5; 3] ords.
Proof.
  destruct (proto_template_reqs_to_legacy_ordinals
              [req_none; req_all [5; 0; 5; 3]] 1 (req_all [5; 0; 5; 3])
              eq_refl)
    as [kind [ords [Hnth [_ [Hall _]]]]].
  destruct (Hall eq_refl) as [Hk [Hasc [Hperm _]]].
  exists ords. subst kind. auto.
Defined.

(** ** Discriminants outside the known variants *)

(** C1, the claim as written, fails: the tag decoder and the node decoder
    return a value of their last variant on a discriminant they do not
    know, and on an unset union. *)
Lemma adapters_default_on_unknown_discriminant :
  (known_variant av_tag_kinds (pb.AVTag.WhichOneof tag_picture) = false /\
   av_tag_to_native tag_picture = TTSTag "" "" [] [] 0%float /\
   av_tag_to_native pb.AVTag.default = TTSTag "" "" [] [] 0%float /\
   ~ rejects_unknown av_tag_kinds pb.AVTag.WhichOneof
       (fun tag => Done (av_tag_to_native tag))) /\
  (known_variant node_kinds (pb.RenderedTemplateNode.WhichOneof node_image)
     = false /\
   proto_replacement_list_to_native [node_image] =
     [inr (mkTemplateReplacement "" "" [])] /\
   ~ rejects_unknown node_kinds pb.RenderedTemplateNode.WhichOneof
       (fun node => Done (proto_replacement_list_to_native [node]))).
Proof.
  repeat split.
  - intros H. exact (not_fatal_done _ (H tag_picture eq_refl)).
  - intros H. exact (not_fatal_done _ (H node_image eq_refl)).
Qed.

(** C1, amended.  The error classifier and the progress decoder, at both
    of its levels, end in the fatal assertion on every discriminant outside
    their known variants.  The other decoders have no such arm: the tag
    decoder builds a text-to-speech tag from the [tts] field on every
    discriminant other than [sound_or_video], the node decoder builds a
    replacement from the [replacement] field on every discriminant other
    than [text], and the requirement decoder gives kind [none] with no
    ordinals on every discriminant other than [any] and [all]. *)
Theorem decoders_on_unknown_discriminant :
  rejects_unknown error_kinds pb.BackendError.WhichOneof
    proto_exception_to_native /\
  rejects_unknown progress_kinds pb.Progress.WhichOneof
    proto_progress_to_native /\
  (forall progress,
     pb.Progress.WhichOneof progress = Some "media_sync" ->
     known_variant media_sync_kinds
       (pb.MediaSyncProgress.WhichOneof (pb.Progress.media_sync progress))
       = false ->
     fatal (proto_progress_to_native progress)) /\
  (forall tag,
     pb.AVTag.WhichOneof tag <> Some "sound_or_video" ->
     av_tag_to_native tag =
       TTSTag (pb.TTSTag.field_text (pb.AVTag.tts tag))
              (pb.TTSTag.lang (pb.AVTag.tts tag))
              (pb.TTSTag.voices (pb.AVTag.tts tag))
              (pb.TTSTag.other_args (pb.AVTag.tts tag))
              (pb.TTSTag.speed (pb.AVTag.tts tag))) /\
  (forall nodes i node,
     nth_error nodes i = Some node ->
     pb.RenderedTemplateNode.WhichOneof node <> Some "text" ->
     let r := pb.RenderedTemplateNode.replacement node in
     nth_error (proto_replacement_list_to_native nodes) i =
       Some (inr (mkTemplateReplacement
                    (pb.RenderedTemplateReplacement.field_name r)
                    (pb.RenderedTemplateReplacement.current_text r)
                    (pb.RenderedTemplateReplacement.filters r)))) /\
  (forall reqs i req,
     nth_error reqs i = Some req ->
     pb.TemplateRequirement.WhichOneof req <> Some "any" ->
     pb.TemplateRequirement.WhichOneof req <> Some "all" ->
     nth_error (proto_template_reqs_to_legacy reqs) i =
       Some (Z.of_nat i, "none", [])).
Proof.
  split; [|split; [|split; [|split; [|split]]]].
  - intros err Hk. exists (pb.BackendError.WhichOneof err).
    unfold proto_exception_to_native.
    settle_tests error_kinds Hk. reflexivity.
  - intros progress Hk. exists (pb.Progress.WhichOneof progress).
    unfold proto_progress_to_native.
    settle_tests progress_kinds Hk. reflexivity.
  - intros progress Hkind Hk. eexists.
    unfold proto_progress_to_native. rewrite Hkind, oneof_is_refl.
    settle_tests media_sync_kinds Hk. reflexivity.
  - intros tag Hne. unfold av_tag_to_native.
    destruct (pb.AVTag.WhichOneof tag == "sound_or_video") eqn:E;
      [|reflexivity].
    apply oneof_is_true in E. contradiction.
  - intros nodes i node Hnth Hne. cbv zeta.
    rewrite proto_replacement_list_to_native_map, nth_error_map, Hnth.
    simpl. unfold replacement_node.
    destruct (pb.RenderedTemplateNode.WhichOneof node == "text") eqn:E;
      [|reflexivity].
    apply oneof_is_true in E. contradiction.
  - intros reqs i req Hnth Hany Hall.
    rewrite proto_template_reqs_to_legacy_nth, Hnth. simpl.
    unfold legacy_req.
    destruct (pb.TemplateRequirement.WhichOneof req == "any") eqn:E1;
      [apply oneof_is_true in E1; contradiction|].
    destruct (pb.TemplateRequirement.WhichOneof req == "all") eqn:E2;
      [apply oneof_is_true in E2; contradiction|].
    reflexivity.
Qed.

Lemma decoders_on_unknown_discriminant_witness :
  fatal (proto_exception_to_native err_unset) /\
  av_tag_to_native tag_picture = TTSTag "" "" [] [] 0%float /\
  nth_error (proto_template_reqs_to_legacy [req_some]) 0 =
    Some (0, "none", []).
Proof.
  destruct decoders_on_unknown_discriminant
    as [Herr [_ [_ [Htag [_ Hreq]]]]].
  split; [|split].
  - apply Herr. reflexivity.
  - apply (Htag tag_picture). discriminate.
  - apply (Hreq [req_some] 0%nat req_some); [reflexivity| |]; discriminate.
Defined.

(** ** The dispatcher *)

Lemma proto_exception_to_native_throws (err : pb.BackendError.t) (r : Raised) :
  proto_exception_to_native err = Throw r ->
  r = ImpossibleLiteral (pb.BackendError.WhichOneof err).
Proof.
  unfold proto_exception_to_native, assert_impossible_literal.
  repeat (destruct (_ == _); [discriminate|]).
  intros H. now injection H.
Qed.

Lemma proto_exception_to_native_known (err : pb.BackendError.t) :
  known_variant error_kinds (pb.BackendError.WhichOneof err) = true ->
  exists e, proto_exception_to_native err = Done e.
Proof.
  unfold proto_exception_to_native.
  destruct (pb.BackendError.WhichOneof err) as [k|]; [|discriminate].
  intros Hk. apply known_in in Hk. simpl in Hk.
  repeat (destruct Hk as [<-|Hk]); try contradiction;
    cbn; eexists; reflexivity.
Qed.

Section Dispatcher.

Variable SerializeToString : pb.BackendInput.t -> bytes.
Variable ParseFromString : bytes -> option pb.BackendOutput.t.
Variable accepts : pb.BackendInput.t -> bool.
Variable St : Type.
Variable engine : Engine St.

Local Abbreviation run_command :=
  (_run_command SerializeToString ParseFromString).
Local Abbreviation response_to :=
  (response SerializeToString ParseFromString engine).

Lemma run_command_success {A : Type} (f : pb.BackendOutput.t -> Eff A)
    (s : St) (input : pb.BackendInput.t) (release_gil : bool)
    (output : pb.BackendOutput.t) :
  response_to s input release_gil = Some output ->
  pb.BackendOutput.WhichOneof output <> Some "error" ->
  result (run engine s (bind (run_command input release_gil) f)) =
  result (run engine
            (snd (engine s (SerializeToString input) release_gil))
            (f output)).
Proof.
  unfold response. intros Hout Hkind. simpl.
  destruct (engine s (SerializeToString input) release_gil) as [ob s'].
  simpl in *. rewrite Hout.
  destruct (pb.BackendOutput.WhichOneof output == "error") eqn:E.
  - apply oneof_is_true in E. contradiction.
  - cbn [bind].
    now destruct (run engine s' (f output)) as [[r s''] log].
Qed.

Lemma run_command_error {A : Type} (f : pb.BackendOutput.t -> Eff A)
    (s : St) (input : pb.BackendInput.t) (release_gil : bool)
    (output : pb.BackendOutput.t) :
  response_to s input release_gil = Some output ->
  pb.BackendOutput.WhichOneof output = Some "error" ->
  result (run engine s (bind (run_command input release_gil) f)) =
  match proto_exception_to_native (pb.BackendOutput.error output) with
  | Done e => Throw (Native e)
  | Throw r => Throw r
  end.
Proof.
  unfold response. intros Hout Hkind. simpl.
  destruct (engine s (SerializeToString input) release_gil) as [ob s'].
  simpl in *. rewrite Hout, Hkind, oneof_is_refl.
  now destruct (proto_exception_to_native (pb.BackendOutput.error output)).
Qed.

Lemma run_bind_ret {A : Type} (m : Eff A) (s : St) :
  run engine s (bind m Ret) = run engine s m.
Proof.
  revert s. induction m as [a|r|i g k IH]; intros s; simpl; try reflexivity.
  destruct (engine s i g) as [ob s']. now rewrite IH.
Qed.

Lemma run_command_calls {A : Type} (g : pb.BackendOutput.t -> A)
    (s : St) (input : pb.BackendInput.t) (release_gil : bool) :
  calls (run engine s
           (bind (run_command input release_gil) (fun out => Ret (g out)))) =
  [(SerializeToString input, release_gil)].
Proof.
  simpl.
  destruct (engine s (SerializeToString input) release_gil) as [ob s'].
  destruct (ParseFromString ob) as [output|]; [|reflexivity].
  destruct (pb.BackendOutput.WhichOneof output == "error"); [|reflexivity].
  now destruct (proto_exception_to_native (pb.BackendOutput.error output)).
Qed.

(** C5, amended.  Once the response envelope is decoded, the dispatcher
    raises the native error [e] exactly when the envelope's discriminant is
    the error variant and [e] is what the classifier returns for the wire
    error, which it does for each of the eight kinds; under the error
    variant with a wire error of any other discriminant the classifier's
    fatal assertion takes its place; under every other discriminant the
    dispatcher returns the decoded envelope and raises nothing. *)
Theorem _run_command_raises_iff_error (s : St) (input : pb.BackendInput.t)
    (release_gil : bool) (output : pb.BackendOutput.t) :
  response_to s input release_gil = Some output ->
  let r := result (run engine s (run_command input release_gil)) in
  let kind := pb.BackendOutput.WhichOneof output in
  let err := pb.BackendOutput.error output in
  (forall e,
     r = Throw (Native e) <->
     kind = Some "error" /\ proto_exception_to_native err = Done e) /\
  (kind = Some "error" ->
   known_variant error_kinds (pb.BackendError.WhichOneof err) = true ->
   exists e, r = Throw (Native e)) /\
  (kind = Some "error" ->
   known_variant error_kinds (pb.BackendError.WhichOneof err) = false ->
   r = Throw (ImpossibleLiteral (pb.BackendError.WhichOneof err))) /\
  (kind <> Some "error" -> r = Done output).
Proof.
  intros Hout. cbv zeta.
  rewrite <- (run_bind_ret (run_command input release_gil) s).
  split; [|split; [|split]].
  - intros e. split.
    + intros Hr.
      destruct (pb.BackendOutput.WhichOneof output == "error") eqn:E.
      * apply oneof_is_true in E. split; [assumption|].
        rewrite (run_command_error Ret s input release_gil
                   output Hout E) in Hr.
        destruct (proto_exception_to_native (pb.BackendOutput.error output))
          as [e'|r'] eqn:Hc.
        -- now injection Hr as ->.
        -- apply proto_exception_to_native_throws in Hc. congruence.
      * assert (Hne : pb.BackendOutput.WhichOneof output <> Some "error").
        { intros H. apply oneof_is_true in H. congruence. }
        rewrite (run_command_success Ret s input release_gil
                   output Hout Hne) in Hr.
        discriminate Hr.
    + intros [Hkind Hc].
      rewrite (run_command_error Ret s input release_gil
                 output Hout Hkind), Hc.
      reflexivity.
  - intros Hkind Hk.
    destruct (proto_exception_to_native_known _ Hk) as [e He].
    exists e.
    rewrite (run_command_error Ret s input release_gil
               output Hout Hkind), He.
    reflexivity.
  - intros Hkind Hk.
    rewrite (run_command_error Ret s input release_gil
               output Hout Hkind).
    unfold proto_exception_to_native.
    settle_tests error_kinds Hk. reflexivity.
  - intros Hne.
    now rewrite (run_command_success Ret s input release_gil
                   output Hout Hne).
Qed.

(** C2, amended.  Under every discriminant other than the error variant
    the dispatcher returns the decoded envelope as it is, without comparing
    the discriminant with the command that was sent; each command method,
    its input message once built, then reads the field named after its own
    command from the envelope returned.  (A method whose arguments the
    constructors refuse raises [ValueError] instead and sends nothing.) *)
Theorem _run_command_returns_any_variant (s : St)
    (output : pb.BackendOutput.t) :
  pb.BackendOutput.WhichOneof output <> Some "error" ->
  let built {A : Type} (input : pb.BackendInput.t) (payload : A) : Res A :=
    if accepts input then Done payload else Throw ValueError in
  (forall input release_gil,
     response_to s input release_gil = Some output ->
     result (run engine s (run_command input release_gil)) = Done output) /\
  (forall template_fronts field_map,
     let input :=
       pb.BackendInput.template_requirements
         (pb.TemplateRequirementsIn.mk template_fronts field_map) in
     response_to s input false = Some output ->
     result (run engine s
               (template_requirements SerializeToString ParseFromString
                  accepts template_fronts field_map)) =
     built input
       (proto_template_reqs_to_legacy
          (pb.TemplateRequirementsOut.requirements
             (pb.BackendOutput.template_requirements output)))) /\
  (forall stamp,
     let input := pb.BackendInput.local_minutes_west stamp in
     response_to s input false = Some output ->
     result (run engine s
               (local_minutes_west SerializeToString ParseFromString
                  accepts stamp)) =
     built input (pb.BackendOutput.local_minutes_west output)) /\
  (forall text,
     let input := pb.BackendInput.strip_av_tags text in
     response_to s input false = Some output ->
     result (run engine s
               (strip_av_tags SerializeToString ParseFromString
                  accepts text)) =
     built input (pb.BackendOutput.strip_av_tags output)) /\
  (forall text question_side,
     let input :=
       pb.BackendInput.extract_av_tags
         (pb.ExtractAVTagsIn.mk text question_side) in
     response_to s input false = Some output ->
     result (run engine s
               (extract_av_tags SerializeToString ParseFromString
                  accepts text question_side)) =
     built input
       (pb.ExtractAVTagsOut.text (pb.BackendOutput.extract_av_tags output),
        map av_tag_to_native
          (pb.ExtractAVTagsOut.av_tags
             (pb.BackendOutput.extract_av_tags output)))) /\
  (forall a b c d e,
     let input :=
       pb.BackendInput.sched_timing_today
         (pb.SchedTimingTodayIn.mk a b c d e) in
     response_to s input false = Some output ->
     result (run engine s
               (sched_timing_today SerializeToString ParseFromString
                  accepts a b c d e)) =
     built input (pb.BackendOutput.sched_timing_today output)) /\
  (forall qfmt afmt fields card_ord,
     let input :=
       pb.BackendInput.render_card
         (pb.RenderCardIn.mk qfmt afmt fields card_ord) in
     response_to s input false = Some output ->
     result (run engine s
               (render_card SerializeToString ParseFromString
                  accepts qfmt afmt fields card_ord)) =
     built input
       (proto_replacement_list_to_native
          (pb.RenderCardOut.question_nodes
             (pb.BackendOutput.render_card output)),
        proto_replacement_list_to_native
          (pb.RenderCardOut.answer_nodes
             (pb.BackendOutput.render_card output)))) /\
  (forall text,
     let input := pb.BackendInput.expand_clozes_to_reveal_latex text in
     response_to s input false = Some output ->
     result (run engine s
               (expand_clozes_to_reveal_latex SerializeToString
                  ParseFromString accepts text)) =
     built input (pb.BackendOutput.expand_clozes_to_reveal_latex output)) /\
  (forall desired_name data,
     let input :=
       pb.BackendInput.add_file_to_media_folder
         (pb.AddFileToMediaFolderIn.mk desired_name data) in
     response_to s input false = Some output ->
     result (run engine s
               (add_file_to_media_folder SerializeToString ParseFromString
                  accepts desired_name data)) =
     built input (pb.BackendOutput.add_file_to_media_folder output)) /\
  (forall hkey media_folder media_db endpoint,
     let input :=
       pb.BackendInput.sync_media
         (pb.SyncMediaIn.mk hkey media_folder media_db endpoint) in
     response_to s input true = Some output ->
     result (run engine s
               (sync_media SerializeToString ParseFromString
                  accepts hkey media_folder media_db endpoint)) =
     built input tt).
Proof.
  intros Hne. cbv zeta.
  repeat match goal with |- _ /\ _ => split end.
  - intros input release_gil Hout.
    rewrite <- (run_bind_ret (run_command input release_gil) s).
    now rewrite (run_command_success Ret s input release_gil
                   output Hout Hne).
  - intros template_fronts field_map Hout.
    unfold template_requirements, BackendInput.
    destruct (accepts _); cbn [bind]; [|reflexivity].
    now rewrite (run_command_success _ s _ _ output Hout Hne).
  - intros stamp Hout. unfold local_minutes_west, BackendInput.
    destruct (accepts _); cbn [bind]; [|reflexivity].
    now rewrite (run_command_success _ s _ _ output Hout Hne).
  - intros text Hout. unfold strip_av_tags, BackendInput.
    destruct (accepts _); cbn [bind]; [|reflexivity].
    now rewrite (run_command_success _ s _ _ output Hout Hne).
  - intros text question_side Hout. unfold extract_av_tags, BackendInput.
    destruct (accepts _); cbn [bind]; [|reflexivity].
    now rewrite (run_command_success _ s _ _ output Hout Hne).
  - intros a b c d e Hout. unfold sched_timing_today, BackendInput.
    destruct (accepts _); cbn [bind]; [|reflexivity].
    now rewrite (run_command_success _ s _ _ output Hout Hne).
  - intros qfmt afmt fields card_ord Hout. unfold render_card, BackendInput.
    destruct (accepts _); cbn [bind]; [|reflexivity].
    now rewrite (run_command_success _ s _ _ output Hout Hne).
  - intros text Hout. unfold expand_clozes_to_reveal_latex, BackendInput.
    destruct (accepts _); cbn [bind]; [|reflexivity].
    now rewrite (run_command_success _ s _ _ output Hout Hne).
  - intros desired_name data Hout.
    unfold add_file_to_media_folder, BackendInput.
    destruct (accepts _); cbn [bind]; [|reflexivity].
    now rewrite (run_command_success _ s _ _ output Hout Hne).
  - intros hkey media_folder media_db endpoint Hout.
    unfold sync_media, BackendInput.
    destruct (accepts _); cbn [bind]; [|reflexivity].
    now rewrite (run_command_success _ s _ _ output Hout Hne).
Qed.

(** C9.  The calls a command method makes into the engine: none when the
    constructors refuse its arguments, and otherwise exactly one, carrying
    the serialized envelope of its own command and the flag that lets the
    host release its lock set exactly when the method is [sync_media].  So
    every call made by [sync_media] has the flag set, and no call made by
    any of the other eight methods has. *)
Theorem only_sync_media_releases_gil (s : St) (m : Method) :
  let log :=
    method_calls SerializeToString ParseFromString accepts engine s m in
  log =
    (if accepts (method_input m)
     then [(SerializeToString (method_input m), is_sync_media m)]
     else []) /\
  (forall call, In call log -> snd call = is_sync_media m) /\
  (accepts (method_input m) = true -> map snd log = [is_sync_media m]).
Proof.
  cbv zeta.
  assert (H : method_calls SerializeToString ParseFromString accepts
                engine s m =
              if accepts (method_input m)
              then [(SerializeToString (method_input m), is_sync_media m)]
              else []).
  { destruct m; unfold method_calls;
      [ unfold template_requirements | unfold sched_timing_today
      | unfold render_card | unfold local_minutes_west | unfold strip_av_tags
      | unfold extract_av_tags | unfold expand_clozes_to_reveal_latex
      | unfold add_file_to_media_folder | unfold sync_media ];
      unfold BackendInput; cbn [method_input is_sync_media];
      (destruct (accepts _); cbn [bind]; [|reflexivity]);
      cbv zeta;
      match goal with
      | |- calls (run _ _ (bind _ (fun o => Ret (@?g o)))) = _ =>
          apply (run_command_calls g)
      end. }
  rewrite H. split; [reflexivity|]. split.
  - destruct (accepts (method_input m)); [|intros call []].
    intros call [<-|[]]. reflexivity.
  - intros ->. reflexivity.
Qed.

End Dispatcher.

(** C2, the claim as written, fails: sent [local_minutes_west] and answered
    with an envelope populated with the output of [strip_av_tags], the
    dispatcher returns that envelope, and the method returns the default of
    the field it reads. *)
Lemma _run_command_accepts_mismatched_variant :
  let input := pb.BackendInput.local_minutes_west 0 in
  let kind := pb.BackendOutput.WhichOneof out_strip_av_tags in
  response no_bytes (decodes_as out_strip_av_tags) echo_engine tt input false
    = Some out_strip_av_tags /\
  kind <> Some (command_name input) /\
  kind <> Some "error" /\
  ~ fatal (result (run echo_engine tt
                     (_run_command no_bytes (decodes_as out_strip_av_tags)
                        input false))) /\
  result (run echo_engine tt
            (local_minutes_west no_bytes (decodes_as out_strip_av_tags)
               fixed_width 0))
    = Done 0.
Proof.
  cbv zeta. repeat split; try discriminate.
  apply not_fatal_done.
Qed.

Lemma _run_command_returns_any_variant_witness :
  result (run echo_engine tt
            (_run_command no_bytes (decodes_as out_strip_av_tags)
               (pb.BackendInput.local_minutes_west 0) false))
    = Done out_strip_av_tags /\
  result (run echo_engine tt
            (strip_av_tags no_bytes (decodes_as out_strip_av_tags)
               fixed_width "a"))
    = Done "x".
Proof.
  assert (Hne : pb.BackendOutput.WhichOneof out_strip_av_tags <> Some "error")
    by discriminate.
  destruct (_run_command_returns_any_variant no_bytes
              (decodes_as out_strip_av_tags) fixed_width unit echo_engine tt
              out_strip_av_tags Hne)
    as [Hrun [_ [_ [Hstrip _]]]].
  split.
  - apply Hrun. reflexivity.
  - apply Hstrip. reflexivity.
Defined.

Lemma only_sync_media_releases_gil_witness :
  method_calls no_bytes (decodes_as out_strip_av_tags) fixed_width
    echo_engine tt (m_sync_media "key" "media" "media.db" "https://sync")
    = [([], true)] /\
  method_calls no_bytes (decodes_as out_strip_av_tags) fixed_width
    echo_engine tt (m_strip_av_tags "a") = [([], false)] /\
  method_calls no_bytes (decodes_as out_strip_av_tags) fixed_width
    echo_engine tt (m_local_minutes_west (2 ^ 63)) = [].
Proof.
  split; [|split].
  - exact (proj1 (only_sync_media_releases_gil no_bytes
                    (decodes_as out_strip_av_tags) fixed_width unit
                    echo_engine tt
                    (m_sync_media "key" "media" "media.db" "https://sync"))).
  - exact (proj1 (only_sync_media_releases_gil no_bytes
                    (decodes_as out_strip_av_tags) fixed_width unit
                    echo_engine tt (m_strip_av_tags "a"))).
  - exact (proj1 (only_sync_media_releases_gil no_bytes
                    (decodes_as out_strip_av_tags) fixed_width unit
                    echo_engine tt (m_local_minutes_west (2 ^ 63)))).
Defined.

(** C5, the claim as written, fails: under the error variant with a wire
    error whose union is unset, the dispatcher raises no classified error;
    the classifier's fatal assertion ends the call. *)
Lemma _run_command_error_without_native_error :
  let r := result (run echo_engine tt
                     (_run_command no_bytes (decodes_as out_error_unset)
                        (pb.BackendInput.strip_av_tags "a") false)) in
  response no_bytes (decodes_as out_error_unset) echo_engine tt
    (pb.BackendInput.strip_av_tags "a") false = Some out_error_unset /\
  pb.BackendOutput.WhichOneof out_error_unset = Some "error" /\
  r = Throw (ImpossibleLiteral None) /\
  ~ (exists e, r = Throw (Native e)) /\
  ~ (exists output, r = Done output).
Proof.
  cbv zeta. repeat split; intros [x H]; discriminate H.
Qed.

Lemma _run_command_raises_iff_error_witness :
  result (run echo_engine tt
            (_run_command no_bytes (decodes_as out_error_template_parse)
               (pb.BackendInput.strip_av_tags "a") false))
    = Throw (Native (mkExc TemplateError [AStr "bad tag"; ABool true])).
Proof.
  destruct (_run_command_raises_iff_error no_bytes
              (decodes_as out_error_template_parse) unit echo_engine tt
              (pb.BackendInput.strip_av_tags "a") false
              out_error_template_parse eq_refl)
    as [Hiff _].
  apply Hiff. split; reflexivity.
Defined.

(** ** The progress callback *)

(** C8.  When the progress bytes decode to an event, the callback returns
    to the engine what the observer, called with [True] and that event,
    returns: the same boolean, or the same exception. *)
Theorem _on_progress_returns_observer_value
    (Progress_ParseFromString : bytes -> option pb.Progress.t)
    (rust_progress_callback : bool -> Progress -> Res bool)
    (progress_bytes : bytes) (progress : pb.Progress.t)
    (native_progress : Progress) :
  Progress_ParseFromString progress_bytes = Some progress ->
  proto_progress_to_native progress = Done native_progress ->
  _on_progress Progress_ParseFromString rust_progress_callback progress_bytes
    = rust_progress_callback true native_progress /\
  forall b : bool,
    rust_progress_callback true native_progress = Done b ->
    _on_progress Progress_ParseFromString rust_progress_callback
      progress_bytes = Done b.
Proof.
  intros Hparse Hnative. unfold _on_progress.
  rewrite Hparse, Hnative. split; [reflexivity|]. intros b Hb. exact Hb.
Qed.

Lemma _on_progress_returns_observer_value_witness :
  _on_progress (fun _ => Some progress_uploaded) observer_interrupts []
    = Done false.
Proof.
  apply (_on_progress_returns_observer_value
           (fun _ => Some progress_uploaded) observer_interrupts []
           progress_uploaded
           (mkProgress ProgressKind_MediaSyncProgress (MediaSyncUploaded 3 1))
           eq_refl eq_refl).
  reflexivity.
Defined.

(** ** Further properties of the template-requirement decoder *)

Lemma ascending_head_least (a : Z) (l : list Z) :
  ascending (a :: l) -> forall x, In x (a :: l) -> a <= x.
Proof.
  unfold ascending. intros Hs.
  apply Sorted_StronglySorted in Hs; [|intros x y z; apply Z.le_trans].
  inversion Hs as [|? ? _ Hall]; subst.
  intros x [<-|Hin]; [lia|].
  rewrite Forall_forall in Hall. now apply Hall.
Qed.

Lemma ascending_tail (a : Z) (l : list Z) : ascending (a :: l) -> ascending l.
Proof. unfold ascending. intros Hs. now inversion Hs. Qed.

Lemma ascending_unique (l1 : list Z) :
  forall l2, ascending l1 -> ascending l2 -> Permutation l1 l2 -> l1 = l2.
Proof.
  induction l1 as [|a l1 IH]; intros l2 H1 H2 Hp.
  - apply Permutation_nil in Hp. now subst.
  - destruct l2 as [|b l2].
    + apply Permutation_sym, Permutation_nil in Hp. discriminate.
    + assert (Hab : a = b).
      { apply Z.le_antisymm.
        - apply (ascending_head_least a l1 H1).
          apply (Permutation_in _ (Permutation_sym Hp)). now left.
        - apply (ascending_head_least b l2 H2).
          apply (Permutation_in _ Hp). now left. }
      subst b. f_equal.
      apply IH; eauto using ascending_tail, Permutation_cons_inv.
Qed.

Lemma sorted_of_permutation (l1 l2 : list Z) :
  Permutation l1 l2 -> sorted l1 = sorted l2.
Proof.
  intros Hp. apply ascending_unique; try apply sorted_ascending.
  rewrite <- (sorted_permutation l1), <- (sorted_permutation l2). exact Hp.
Qed.

Lemma sorted_of_ascending (l : list Z) : ascending l -> sorted l = l.
Proof.
  intros Hs. apply ascending_unique; [apply sorted_ascending|assumption|].
  apply Permutation_sym, sorted_permutation.
Qed.

Lemma legacy_req_equiv (idx : Z) (r1 r2 : pb.TemplateRequirement.t) :
  req_equiv r1 r2 -> legacy_req idx r1 = legacy_req idx r2.
Proof.
  intros [Hw [Hany Hall]]. unfold legacy_req. rewrite Hw.
  now rewrite (sorted_of_permutation _ _ Hany),
              (sorted_of_permutation _ _ Hall).
Qed.

Lemma legacy_req_shift (n idx : Z) (req : pb.TemplateRequirement.t) :
  legacy_req (n + idx) req = shift_index n (legacy_req idx req).
Proof.
  unfold legacy_req.
  destruct (_ == "any"); [reflexivity|].
  destruct (_ == "all"); reflexivity.
Qed.

Lemma legacy_reqs_loop_shift (reqs : list pb.TemplateRequirement.t) :
  forall n idx,
    legacy_reqs_loop (n + idx) reqs [] =
    map (shift_index n) (legacy_reqs_loop idx reqs []).
Proof.
  induction reqs as [|req rest IH]; intros n idx; [reflexivity|].
  rewrite !legacy_reqs_loop_cons. cbn [map].
  rewrite legacy_req_shift. f_equal.
  rewrite <- IH. f_equal. lia.
Qed.

Lemma legacy_reqs_loop_app (a : list pb.TemplateRequirement.t) :
  forall idx b,
    legacy_reqs_loop idx (a ++ b) [] =
    (legacy_reqs_loop idx a [] ++
     legacy_reqs_loop (idx + Z.of_nat (List.length a)) b [])%list.
Proof.
  induction a as [|req rest IH]; intros idx b.
  - simpl. now rewrite Z.add_0_r.
  - rewrite <- app_comm_cons, !legacy_reqs_loop_cons, IH.
    rewrite <- app_comm_cons. do 3 f_equal.
    cbn [List.length]. lia.
Qed.

(** X1.  The decoded requirements depend on the wire ordinals only up to
    their order: two wire lists whose requirements agree pairwise on the
    discriminant and carry the same ordinals in any order decode to the
    same list. *)
Theorem proto_template_reqs_to_legacy_order_independent
    (reqs1 reqs2 : list pb.TemplateRequirement.t) :
  Forall2 req_equiv reqs1 reqs2 ->
  proto_template_reqs_to_legacy reqs1 = proto_template_reqs_to_legacy reqs2.
Proof.
  unfold proto_template_reqs_to_legacy. generalize 0.
  intros idx H. revert idx.
  induction H as [|r1 r2 l1 l2 Hr _ IH]; intros idx; [reflexivity|].
  rewrite !legacy_reqs_loop_cons, (legacy_req_equiv idx r1 r2 Hr).
  f_equal. apply IH.
Qed.

Lemma proto_template_reqs_to_legacy_order_independent_witness :
  proto_template_reqs_to_legacy [req_any [2; 1; 2]; req_all [3; 0]] =
  proto_template_reqs_to_legacy [req_any [2; 2; 1]; req_all [0; 3]].
Proof.
  apply proto_template_reqs_to_legacy_order_independent.
  repeat constructor; simpl; auto using perm_swap, perm_skip.
Defined.

(** X2.  Wire ordinals that already ascend pass through the decoder
    unchanged, under [any] and under [all]. *)
Theorem proto_template_reqs_to_legacy_keeps_ascending
    (reqs : list pb.TemplateRequirement.t) (i : nat)
    (req : pb.TemplateRequirement.t) :
  nth_error reqs i = Some req ->
  let any := pb.TemplateRequirementOrds.ords (pb.TemplateRequirement.any req) in
  let all := pb.TemplateRequirementOrds.ords (pb.TemplateRequirement.all req) in
  (pb.TemplateRequirement.WhichOneof req = Some "any" -> ascending any ->
   nth_error (proto_template_reqs_to_legacy reqs) i =
     Some (Z.of_nat i, "any", any)) /\
  (pb.TemplateRequirement.WhichOneof req = Some "all" -> ascending all ->
   nth_error (proto_template_reqs_to_legacy reqs) i =
     Some (Z.of_nat i, "all", all)).
Proof.
  intros Hreq. cbv zeta.
  rewrite proto_template_reqs_to_legacy_nth, Hreq. simpl.
  unfold legacy_req. split; intros Hw Hs; rewrite Hw; cbn;
    now rewrite (sorted_of_ascending _ Hs).
Qed.

Lemma proto_template_reqs_to_legacy_keeps_ascending_witness :
  nth_error (proto_template_reqs_to_legacy [req_none; req_all [0; 3; 3]]) 1 =
    Some (1, "all", [0; 3; 3]).
Proof.
  destruct (proto_template_reqs_to_legacy_keeps_ascending
              [req_none; req_all [0; 3; 3]] 1 (req_all [0; 3; 3]) eq_refl)
    as [_ H].
  apply H; [reflexivity|].
  unfold ascending. repeat constructor; lia.
Defined.

(** X3.  Decoding a concatenation: the requirements of the second list
    decode as they do alone, with their indices continuing after those of
    the first list. *)
Theorem proto_template_reqs_to_legacy_app
    (a b : list pb.TemplateRequirement.t) :
  proto_template_reqs_to_legacy (a ++ b) =
  (proto_template_reqs_to_legacy a ++
   map (shift_index (Z.of_nat (List.length a)))
       (proto_template_reqs_to_legacy b))%list.
Proof.
  unfold proto_template_reqs_to_legacy.
  rewrite legacy_reqs_loop_app. f_equal.
  rewrite <- legacy_reqs_loop_shift. f_equal. lia.
Qed.

(** ** Further properties of the rendered-node decoder *)

(** X4.  The node decoder keeps the sequence as it is received: one result
    per node and in the same order, a text node giving its text unchanged
    and a replacement node its three fields; decoding a concatenation is
    concatenating the decodings. *)
Theorem proto_replacement_list_to_native_sequence
    (nodes more : list pb.RenderedTemplateNode.t) :
  List.length (proto_replacement_list_to_native nodes) = List.length nodes /\
  proto_replacement_list_to_native (nodes ++ more) =
    (proto_replacement_list_to_native nodes ++
     proto_replacement_list_to_native more)%list /\
  forall i node,
    nth_error nodes i = Some node ->
    (pb.RenderedTemplateNode.WhichOneof node = Some "text" ->
     nth_error (proto_replacement_list_to_native nodes) i =
       Some (inl (pb.RenderedTemplateNode.text node))) /\
    (pb.RenderedTemplateNode.WhichOneof node = Some "replacement" ->
     let r := pb.RenderedTemplateNode.replacement node in
     nth_error (proto_replacement_list_to_native nodes) i =
       Some (inr (mkTemplateReplacement
                    (pb.RenderedTemplateReplacement.field_name r)
                    (pb.RenderedTemplateReplacement.current_text r)
                    (pb.RenderedTemplateReplacement.filters r)))).
Proof.
  rewrite !proto_replacement_list_to_native_map.
  split; [apply length_map|]. split; [apply map_app|].
  intros i node Hnth. rewrite nth_error_map, Hnth. simpl.
  unfold replacement_node. split; intros Hw; now rewrite Hw.
Qed.

Lemma proto_replacement_list_to_native_sequence_witness :
  nth_error
    (proto_replacement_list_to_native
       [node_text "Front: "; node_replacement "Front" "cat" ["text"]]) 1 =
    Some (inr (mkTemplateReplacement "Front" "cat" ["text"])).
Proof.
  destruct (proto_replacement_list_to_native_sequence
              [node_text "Front: "; node_replacement "Front" "cat" ["text"]]
              [])
    as [_ [_ H]].
  destruct (H 1%nat (node_replacement "Front" "cat" ["text"]) eq_refl)
    as [_ Hr].
  exact (Hr eq_refl).
Defined.

(** ** Further properties of the error classifier *)

Lemma proto_exception_to_native_done (err : pb.BackendError.t) (e : Exc) :
  proto_exception_to_native err = Done e ->
  exists k,
    pb.BackendError.WhichOneof err = Some k /\ In k error_kinds /\
    (e = mkExc Interrupted [] /\ k = "interrupted" \/
     e = mkExc AnkiWebAuthFailed [] /\ k = "ankiweb_auth_failed" \/
     (exists msg b,
        e = mkExc TemplateError [AStr msg; ABool b] /\ k = "template_parse") \/
     (exists c msg,
        e = mkExc c [AStr msg] /\ is_StringError c = true /\
        c <> TemplateError /\ wire_kind_of_class c = Some k)).
Proof.
  unfold proto_exception_to_native, assert_impossible_literal.
  repeat match goal with
         | |- (if ?w == ?name then _ else _) = _ -> _ =>
             let E := fresh "E" in
             destruct (w == name) eqn:E;
             [ apply oneof_is_true in E; intros H; injection H as <-;
               exists name; split; [exact E|];
               split; [apply known_in; reflexivity|]
             | ]
         end; try discriminate.
  - left. now split.
  - do 3 right. do 2 eexists. repeat split; discriminate.
  - do 3 right. do 2 eexists. repeat split; discriminate.
  - do 3 right. do 2 eexists. repeat split; discriminate.
  - do 2 right. left. do 2 eexists. now split.
  - do 3 right. do 2 eexists. repeat split; discriminate.
  - right. left. now split.
  - do 3 right. do 2 eexists. repeat split; discriminate.
Qed.

(** X5.  The class of a classified error tells the wire discriminant it
    came from: no two error kinds are classified into the same class. *)
Theorem proto_exception_to_native_class_names_kind
    (err1 err2 : pb.BackendError.t) (e1 e2 : Exc) :
  proto_exception_to_native err1 = Done e1 ->
  proto_exception_to_native err2 = Done e2 ->
  wire_kind_of_class (exc_class e1) = pb.BackendError.WhichOneof err1 /\
  (exc_class e1 = exc_class e2 ->
   pb.BackendError.WhichOneof err1 = pb.BackendError.WhichOneof err2).
Proof.
  assert (Hk : forall err e, proto_exception_to_native err = Done e ->
                 wire_kind_of_class (exc_class e) =
                 pb.BackendError.WhichOneof err).
  { intros err e H.
    destruct (proto_exception_to_native_done err e H)
      as [k [Hw [_ [[-> ->]|[[-> ->]|[[msg [b [-> ->]]]|
                                     [c [msg [-> [_ [_ Hc]]]]]]]]]]];
      now rewrite Hw. }
  intros H1 H2. split; [now apply Hk|].
  intros Hc. rewrite <- (Hk _ _ H1), <- (Hk _ _ H2). now rewrite Hc.
Qed.

Lemma proto_exception_to_native_class_names_kind_witness :
  wire_kind_of_class TemplateError =
    pb.BackendError.WhichOneof err_template_parse.
Proof.
  exact (proj1 (proto_exception_to_native_class_names_kind
                  err_template_parse err_template_parse
                  (mkExc TemplateError [AStr "bad tag"; ABool true])
                  (mkExc TemplateError [AStr "bad tag"; ABool true])
                  eq_refl eq_refl)).
Defined.

(** X6.  Every error the classifier returns can be read back safely: an
    instance of [StringError] always has its message, so [__str__] finds
    [args[0]]; a [TemplateError] always has its flag, so [q_side] finds
    [args[1]]; an error of another class has no arguments; and the class is
    never plain [Exception]. *)
Theorem proto_exception_to_native_readable
    (err : pb.BackendError.t) (e : Exc) :
  proto_exception_to_native err = Done e ->
  (is_StringError (exc_class e) = true ->
   exists msg, StringError__str__ e = Some msg) /\
  (exc_class e = TemplateError ->
   exists b, TemplateError_q_side e = Some b) /\
  (is_StringError (exc_class e) = false -> args e = []) /\
  exc_class e <> Exception.
Proof.
  intros H.
  destruct (proto_exception_to_native_done err e H)
    as [k [_ [_ [[-> _]|[[-> _]|[[msg [b [-> _]]]|
                                 [c [msg [-> [Hs [Hne Hc]]]]]]]]]]]; cbn.
  - repeat split; try discriminate.
  - repeat split; try discriminate.
  - repeat split; try discriminate; eauto.
  - repeat split; try congruence; eauto.
    intros ->. discriminate.
Qed.

Lemma proto_exception_to_native_readable_witness :
  exists msg,
    StringError__str__ (mkExc TemplateError [AStr "bad tag"; ABool true])
      = Some msg.
Proof.
  destruct (proto_exception_to_native_readable err_template_parse
              (mkExc TemplateError [AStr "bad tag"; ABool true]) eq_refl)
    as [H _].
  apply H. reflexivity.
Defined.

(** ** Further properties of the command methods *)

(** X7.  Against an engine whose answers decode to the envelope [output]:
    a command method whose arguments the constructors refuse raises
    [ValueError], whatever the envelope; a method whose input message is
    built raises exactly when the envelope is populated with the error
    variant, and what it raises is what the classifier makes of the wire
    error: the native error of one of the eight kinds, or the fatal
    assertion. *)
Theorem methods_raise_iff_error_envelope
    (SerializeToString : pb.BackendInput.t -> bytes)
    (ParseFromString : bytes -> option pb.BackendOutput.t)
    (accepts : pb.BackendInput.t -> bool)
    (St : Type) (engine : Engine St) (s : St)
    (output : pb.BackendOutput.t) (m : Method) :
  (forall input_bytes release_gil,
     ParseFromString (fst (engine s input_bytes release_gil)) = Some output) ->
  let raises := method_raised SerializeToString ParseFromString accepts
                  engine s m in
  (accepts (method_input m) = false -> raises = Some ValueError) /\
  (accepts (method_input m) = true ->
   pb.BackendOutput.WhichOneof output = Some "error" ->
   raises =
     Some (match proto_exception_to_native (pb.BackendOutput.error output)
           with
           | Done e => Native e
           | Throw r => r
           end)) /\
  (accepts (method_input m) = true ->
   pb.BackendOutput.WhichOneof output <> Some "error" ->
   raises = None).
Proof.
  intros Hall. cbv zeta. split; [|split].
  - intros Hacc.
    destruct m; unfold method_raised;
      [ unfold template_requirements | unfold sched_timing_today
      | unfold render_card | unfold local_minutes_west | unfold strip_av_tags
      | unfold extract_av_tags | unfold expand_clozes_to_reveal_latex
      | unfold add_file_to_media_folder | unfold sync_media ];
      unfold BackendInput; cbn [method_input] in Hacc;
      rewrite Hacc; reflexivity.
  - intros Hacc Hkind.
    destruct m; unfold method_raised;
      [ unfold template_requirements | unfold sched_timing_today
      | unfold render_card | unfold local_minutes_west | unfold strip_av_tags
      | unfold extract_av_tags | unfold expand_clozes_to_reveal_latex
      | unfold add_file_to_media_folder | unfold sync_media ];
      unfold BackendInput; cbn [method_input] in Hacc;
      rewrite Hacc; cbn [bind]; cbv zeta;
      rewrite (run_command_error _ _ _ engine _ s _ _ output
                 (Hall _ _) Hkind);
      now destruct (proto_exception_to_native (pb.BackendOutput.error output)).
  - intros Hacc Hkind.
    destruct m; unfold method_raised;
      [ unfold template_requirements | unfold sched_timing_today
      | unfold render_card | unfold local_minutes_west | unfold strip_av_tags
      | unfold extract_av_tags | unfold expand_clozes_to_reveal_latex
      | unfold add_file_to_media_folder | unfold sync_media ];
      unfold BackendInput; cbn [method_input] in Hacc;
      rewrite Hacc; cbn [bind]; cbv zeta;
      rewrite (run_command_success _ _ _ engine _ s _ _ output
                 (Hall _ _) Hkind);
      reflexivity.
Qed.

Lemma methods_raise_iff_error_envelope_witness :
  method_raised no_bytes (decodes_as out_error_template_parse) fixed_width
    echo_engine tt (m_sync_media "key" "media" "media.db" "https://sync")
    = Some (Native (mkExc TemplateError [AStr "bad tag"; ABool true])) /\
  method_raised no_bytes (decodes_as out_strip_av_tags) fixed_width
    echo_engine tt (m_render_card "{{Front}}" "{{Back}}" [] 0) = None /\
  method_raised no_bytes (decodes_as out_strip_av_tags) fixed_width
    echo_engine tt (m_template_requirements ["{{Front}}"] [("Front", -1)])
    = Some ValueError.
Proof.
  split; [|split].
  - destruct (methods_raise_iff_error_envelope no_bytes
                (decodes_as out_error_template_parse) fixed_width unit
                echo_engine tt out_error_template_parse
                (m_sync_media "key" "media" "media.db" "https://sync")
                (fun _ _ => eq_refl))
      as [_ [H _]].
    apply H; reflexivity.
  - destruct (methods_raise_iff_error_envelope no_bytes
                (decodes_as out_strip_av_tags) fixed_width unit
                echo_engine tt out_strip_av_tags
                (m_render_card "{{Front}}" "{{Back}}" [] 0)
                (fun _ _ => eq_refl))
      as [_ [_ H]].
    apply H; [reflexivity|discriminate].
  - destruct (methods_raise_iff_error_envelope no_bytes
                (decodes_as out_strip_av_tags) fixed_width unit
                echo_engine tt out_strip_av_tags
                (m_template_requirements ["{{Front}}"] [("Front", -1)])
                (fun _ _ => eq_refl))
      as [H _].
    apply H. reflexivity.
Defined.

(** ** Further properties of the progress channel *)

(** X8.  A progress message that decodes names its media-sync subkind: the
    category is [media_sync] and the inner discriminant is the one the
    class of the decoded value stands for, so that two messages decoding
    to the same value carry the same subkind. *)
Theorem proto_progress_to_native_names_subkind
    (progress : pb.Progress.t) (native_progress : Progress) :
  proto_progress_to_native progress = Done native_progress ->
  pb.Progress.WhichOneof progress = Some "media_sync" /\
  pb.MediaSyncProgress.WhichOneof (pb.Progress.media_sync progress) =
    Some (subkind_name (val native_progress)) /\
  forall progress',
    proto_progress_to_native progress' = Done native_progress ->
    pb.MediaSyncProgress.WhichOneof (pb.Progress.media_sync progress') =
    pb.MediaSyncProgress.WhichOneof (pb.Progress.media_sync progress).
Proof.
  assert (Hk : forall p ev, proto_progress_to_native p = Done ev ->
                 pb.Progress.WhichOneof p = Some "media_sync" /\
                 pb.MediaSyncProgress.WhichOneof (pb.Progress.media_sync p) =
                   Some (subkind_name (val ev))).
  { intros p ev. unfold proto_progress_to_native, assert_impossible_literal.
    destruct (pb.Progress.WhichOneof p == "media_sync") eqn:E;
      [|discriminate].
    apply oneof_is_true in E.
    repeat match goal with
           | |- (if ?w == ?name then _ else _) = _ -> _ =>
               let E' := fresh "E" in
               destruct (w == name) eqn:E';
               [ apply oneof_is_true in E'; intros H; injection H as <-;
                 now split
               | ]
           end.
    discriminate. }
  intros H. destruct (Hk _ _ H) as [Hout Hin].
  repeat split; try assumption.
  intros p' H'. destruct (Hk _ _ H') as [_ Hin']. congruence.
Qed.

Lemma proto_progress_to_native_names_subkind_witness :
  pb.MediaSyncProgress.WhichOneof (pb.Progress.media_sync progress_uploaded) =
    Some (subkind_name (MediaSyncUploaded 3 1)).
Proof.
  destruct (proto_progress_to_native_names_subkind progress_uploaded
              (mkProgress ProgressKind_MediaSyncProgress
                 (MediaSyncUploaded 3 1)) eq_refl)
    as [_ [H _]].
  exact H.
Defined.

(** X9.  A progress message that does not decode never reaches the
    observer: whatever observer is registered, the callback ends in the
    fatal assertion of the decoder and returns no boolean to the engine. *)
Theorem _on_progress_fatal_without_observer
    (Progress_ParseFromString : bytes -> option pb.Progress.t)
    (progress_bytes : bytes) (progress : pb.Progress.t) :
  Progress_ParseFromString progress_bytes = Some progress ->
  pb.Progress.WhichOneof progress <> Some "media_sync" \/
  known_variant media_sync_kinds
    (pb.MediaSyncProgress.WhichOneof (pb.Progress.media_sync progress))
    = false ->
  exists arg,
    forall rust_progress_callback : bool -> Progress -> Res bool,
      _on_progress Progress_ParseFromString rust_progress_callback
        progress_bytes = Throw (ImpossibleLiteral arg).
Proof.
  intros Hparse Hbad.
  assert (Hf : fatal (proto_progress_to_native progress)).
  { unfold proto_progress_to_native, assert_impossible_literal.
    destruct (pb.Progress.WhichOneof progress == "media_sync") eqn:E;
      [|now eexists].
    apply oneof_is_true in E. destruct Hbad as [Hne|Hk]; [contradiction|].
    settle_tests media_sync_kinds Hk. now eexists. }
  destruct Hf as [arg Hf]. exists arg. intros observer.
  unfold _on_progress. now rewrite Hparse, Hf.
Qed.

Lemma _on_progress_fatal_without_observer_witness :
  exists arg,
    forall rust_progress_callback : bool -> Progress -> Res bool,
      _on_progress (fun _ => Some pb.Progress.default) rust_progress_callback
        [] = Throw (ImpossibleLiteral arg).
Proof.
  apply (_on_progress_fatal_without_observer
           (fun _ => Some pb.Progress.default) [] pb.Progress.default
           eq_refl).
  left. discriminate.
Defined.
